(** * XBee IO quirk: sample decoding, pin commands and pin-state updates

    A shallow embedding of [zhaquirks/xbee/xbee_io.py]:

    - [IOSample.deserialize], the decoder of an XBee IO sample report;
    - [XBeeOnOff.command] and [XbeeSensor.remote_at], the on/off command
      that is turned into a remote AT pin write;
    - [DigitalIOCluster.handle_cluster_general_request], which pushes the
      sampled digital pins to the on/off endpoints;
    - [DigitalIOCluster.deserialize], the receive path of the IO cluster.

    Python integers are [Z], [bytes] are lists of [Byte.byte], Python lists
    are lists, the dictionaries with literal keys are association lists, and
    a call that may raise or log lives in the monad [Py] below. *)

From Stdlib Require Import ZArith Bool String List Lia.
From Stdlib.Strings Require Import Byte.
Import ListNotations.
Local Open Scope Z_scope.

(** ** Python primitives *)

Module Python.

Definition bytes := list byte.

(** The integer value of one element of a [bytes] object. *)
Definition byte_val (b : byte) : Z := Z.of_N (Byte.to_N b).

(** The byte whose value is [z mod 256]. *)
Definition byte_of_Z (z : Z) : byte :=
  match Byte.of_N (Z.to_N (z mod 256)) with
  | Some b => b
  | None => x00
  end.

(** How a slice bound is clamped against the length of the sequence. *)
Definition clamp (len i : Z) : Z :=
  if i <? 0 then Z.max 0 (len + i) else Z.min i len.

(** [data[i:j]] *)
Definition slice {A : Type} (data : list A) (i j : Z) : list A :=
  let len := Z.of_nat (length data) in
  let a := clamp len i in
  let b := clamp len j in
  firstn (Z.to_nat (b - a)) (skipn (Z.to_nat a) data).

(** [data[i:]] *)
Definition slice_from {A : Type} (data : list A) (i : Z) : list A :=
  skipn (Z.to_nat (clamp (Z.of_nat (length data)) i)) data.

(** [int.from_bytes(b, byteorder='big')] *)
Definition int_from_bytes (b : bytes) : Z :=
  fold_left (fun acc x => acc * 256 + byte_val x) b 0.

(** [range(start, stop, -1)] *)
Definition range_down (start stop : Z) : list Z :=
  map (fun k => start - Z.of_nat k) (seq 0 (Z.to_nat (start - stop))).

(** [enumerate(l)] *)
Definition enumerate {A : Type} (l : list A) : list (Z * A) :=
  combine (map Z.of_nat (seq 0 (length l))) l.

(** A dictionary written with literal keys, in the order of the source. *)
Definition dict (K V : Type) := list (K * V).

Fixpoint dict_get {K V : Type} (eqb : K -> K -> bool)
         (d : dict K V) (k : K) : option V :=
  match d with
  | [] => None
  | (k', v) :: d' => if eqb k' k then Some v else dict_get eqb d' k
  end.

Definition dict_mem {K V : Type} (eqb : K -> K -> bool)
           (k : K) (d : dict K V) : bool :=
  match dict_get eqb d k with Some _ => true | None => false end.

(** Exceptions the modelled code can meet. *)
Inductive exn : Type :=
| KeyError
| IndexError
| TypeError
| AttributeError
| StructError
| TransportError.

Inductive outcome (A : Type) : Type :=
| Returned (a : A)
| Raised (e : exn).
Arguments Returned {A} a.
Arguments Raised {A} e.

End Python.
Import Python.

(** ** Effects

    What the quirk does to its surroundings: log records, remote AT
    commands handed to the coordinator, attribute updates of an endpoint's
    on/off cluster, and calls into the parent classes of zigpy. *)

Inductive Event : Type :=
| LogDebug (msg : string)
| LogWarning (msg : string) (args : list Z)
| RemoteAtCommand (nwk : Z) (command : string) (args : list Z)
                  (apply_changes encryption : bool)
| UpdateAttribute (endpoint_id : Z) (attrid : Z) (value : Z)
| SuperGeneralRequest (tsn command_id : Z).

(** A computation logs events and then returns or raises. *)
Definition Py (A : Type) : Type := (list Event * outcome A)%type.

Definition ret {A : Type} (a : A) : Py A := ([], Returned a).
Definition raise {A : Type} (e : exn) : Py A := ([], Raised e).
Definition emit (ev : Event) : Py unit := ([ev], Returned tt).

Definition bind {A B : Type} (m : Py A) (f : A -> Py B) : Py B :=
  match m with
  | (l, Returned a) => let (l', r) := f a in (l ++ l', r)
  | (l, Raised e) => (l, Raised e)
  end.

Notation "x <- m ;; k" := (bind m (fun x => k))
  (at level 61, m at next level, right associativity).
Notation "' p <- m ;; k" := (bind m (fun p => k))
  (at level 61, p pattern, m at next level, right associativity).
Notation "m ;;; k" := (bind m (fun _ => k))
  (at level 61, right associativity).

(** [d[k]] on a dictionary. *)
Definition getitem {K V : Type} (eqb : K -> K -> bool)
           (d : dict K V) (k : K) : Py V :=
  match dict_get eqb d k with
  | Some v => ret v
  | None => raise KeyError
  end.

(** [l[i]] on a list: a negative index counts from the end. *)
Definition list_getitem {A : Type} (l : list A) (i : Z) : Py A :=
  let j := if i <? 0 then Z.of_nat (length l) + i else i in
  if j <? 0 then raise IndexError
  else match nth_error l (Z.to_nat j) with
       | Some v => ret v
       | None => raise IndexError
       end.

(** ** Constants of the module *)

Definition XBEE_PROFILE_ID : Z := 0xC105.
Definition XBEE_IO_CLUSTER : Z := 0x92.
Definition DIO_APPLY_CHANGES : Z := 0x02.
Definition DIO_PIN_HIGH : Z := 0x05.
Definition DIO_PIN_LOW : Z := 0x04.
Definition ON_OFF_CMD : Z := 0x0000.

(** ** [IOSample.deserialize] *)

(** The dictionary the decoder returns: four lists of integers. *)
Definition SampleDict := dict string (list Z).

Definition num_bits : Z := 13.

(** [[(x >> bit) & 1 for bit in range(n - 1, -1, -1)]] *)
Definition bits_desc (x n : Z) : list Z :=
  map (fun bit => Z.land (Z.shiftr x bit) 1) (range_down (n - 1) (-1)).

(** The loop over [analog_pins]: [sample_index] and [analog_samples] are
    the two variables it updates. *)
Fixpoint analog_loop (data : bytes) (analog_pins : list Z)
         (sample_index : Z) (analog_samples : list Z) : list Z :=
  match analog_pins with
  | [] => analog_samples
  | apin :: rest =>
      if apin =? 1 then
        analog_loop data rest (sample_index + 1)
          (analog_samples ++
             [int_from_bytes (slice data (5 + sample_index) (7 + sample_index))])
      else
        analog_loop data rest sample_index (analog_samples ++ [0])
  end.

Definition IOSample_deserialize (data : bytes) : Py (SampleDict * bytes) :=
  let digital_mask := slice data 0 2 in
  let analog_mask := slice data 2 3 in
  let digital_sample := slice data 3 5 in
  let digital_pins := bits_desc (int_from_bytes digital_mask) num_bits in
  let digital_pins := rev digital_pins in
  let analog_pins := bits_desc (int_from_bytes analog_mask) 8 in
  let analog_pins := rev analog_pins in
  let digital_samples := bits_desc (int_from_bytes digital_sample) num_bits in
  let digital_samples := rev digital_samples in
  let sample_index := 0 in
  let analog_samples := analog_loop data analog_pins sample_index [] in
  ret ([("digital_pins", digital_pins);
        ("analog_pins", analog_pins);
        ("digital_samples", digital_samples);
        ("analog_samples", analog_samples)]%string, []).

(** [IOSample.serialize] only logs. *)
Definition IOSample_serialize : Py unit :=
  emit (LogDebug "Serialize not implemented.").

(** The four entries of a decoded sample, by key. *)
Definition field (values : SampleDict) (key : string) : list Z :=
  match dict_get String.eqb values key with
  | Some l => l
  | None => []
  end.

(** ** Endpoints of the device *)

Definition ENDPOINT_MAP : dict Z Z :=
  [(0, 0xd0); (1, 0xd1); (2, 0xd2); (3, 0xd3); (4, 0xd4); (5, 0xd5);
   (10, 0xda); (11, 0xdb); (12, 0xdc)].

Inductive Cluster : Type := DigitalIOCluster | XBeeOnOff.

(** The input clusters of [XbeeSensor.replacement], per endpoint. *)
Definition replacement_endpoints : dict Z (list Cluster) :=
  [(232, [DigitalIOCluster]);
   (0xd0, [XBeeOnOff]); (0xd1, [XBeeOnOff]); (0xd2, [XBeeOnOff]);
   (0xd3, [XBeeOnOff]); (0xd4, [XBeeOnOff]); (0xd5, [XBeeOnOff]);
   (0xda, [XBeeOnOff]); (0xdb, [XBeeOnOff]); (0xdc, [XBeeOnOff])].

(** ** [XbeeSensor.remote_at] and [XBeeOnOff.command] *)

(** What awaiting an object gives; [None] is Python's [None], which cannot
    be awaited. *)
Definition Awaitable (A : Type) : Type := option (outcome A).

Definition await {A : Type} (x : Awaitable A) : Py A :=
  match x with
  | Some (Returned a) => ret a
  | Some (Raised e) => raise e
  | None => raise TypeError
  end.

(** The coordinator application: [remote_at_command] is there only with
    zigpy_xbee ([hasattr] in the source). *)
Record Application : Type := {
  remote_at_command :
    option (Z -> string -> list Z -> bool -> bool -> outcome unit)
}.

Record XbeeSensor : Type := {
  _application : Application;
  nwk : Z
}.

Definition XbeeSensor_remote_at (self : XbeeSensor)
           (command : string) (args : list Z) : Py (Awaitable unit) :=
  match remote_at_command (_application self) with
  | Some send =>
      emit (RemoteAtCommand (nwk self) command args true true) ;;;
      ret (Some (send (nwk self) command args true true))
  | None =>
      emit (LogWarning "Remote At Command not supported by this coordinator" []) ;;;
      ret None
  end.

Inductive foundation_Status : Type :=
| SUCCESS
| OtherStatus (code : Z).

(** What [XBeeOnOff.command] returns: the value of the parent's
    [command(command, *args)], or the pair [(0, status)]. *)
Inductive CommandReturn : Type :=
| SuperCommand (command : Z) (args : list Z)
| Reply (tsn : Z) (status : foundation_Status).

Definition ep_id_2_pin : dict Z string :=
  [(0xd0, "D0"); (0xd1, "D1"); (0xd2, "D2"); (0xd3, "D3"); (0xd4, "D4");
   (0xd5, "D5"); (0xda, "P0"); (0xdb, "P1"); (0xdc, "P2")]%string.

(** [self._endpoint] is given by its device and its [endpoint_id]. *)
Definition XBeeOnOff_command (device : XbeeSensor) (endpoint_id : Z)
           (command : Z) (args : list Z) : Py CommandReturn :=
  let pin_name := dict_get Z.eqb ep_id_2_pin endpoint_id in
  if negb (existsb (Z.eqb command) [0; 1]) then
    ret (SuperCommand command args)
  else
    match pin_name with
    | None => ret (SuperCommand command args)
    | Some pin_name =>
        let pin_cmd := if command =? 0 then DIO_PIN_LOW else DIO_PIN_HIGH in
        a <- XbeeSensor_remote_at device pin_name [pin_cmd] ;;
        await a ;;;
        ret (Reply 0 SUCCESS)
    end.

(** ** [DigitalIOCluster.handle_cluster_general_request] *)

(** [device[endpoint_id].on_off]: the endpoint has to exist and to carry
    the on/off cluster. *)
Definition device_on_off (endpoint_id : Z) : Py unit :=
  clusters <- getitem Z.eqb replacement_endpoints endpoint_id ;;
  if existsb (fun c => match c with XBeeOnOff => true | _ => false end) clusters
  then ret tt
  else raise AttributeError.

(** The body of [for pin in active_pins]. *)
Fixpoint update_pins (values : SampleDict) (active_pins : list Z) : Py unit :=
  match active_pins with
  | [] => ret tt
  | pin :: rest =>
      endpoint_id <- getitem Z.eqb ENDPOINT_MAP pin ;;
      device_on_off endpoint_id ;;;
      digital_samples <- getitem String.eqb values "digital_samples"%string ;;
      value <- list_getitem digital_samples pin ;;
      emit (UpdateAttribute endpoint_id ON_OFF_CMD value) ;;;
      update_pins values rest
  end.

Definition handle_cluster_general_request (tsn command_id : Z)
           (args : list SampleDict) : Py unit :=
  if command_id =? ON_OFF_CMD then
    values <- list_getitem args 0 ;;
    if dict_mem String.eqb "digital_pins"%string values
       && dict_mem String.eqb "digital_samples"%string values
    then
      digital_pins <- getitem String.eqb values "digital_pins"%string ;;
      let active_pins :=
        map fst (filter (fun ix => snd ix =? 1) (enumerate digital_pins)) in
      update_pins values active_pins
    else ret tt
  else
    emit (SuperGeneralRequest tsn command_id).

(** ** [DigitalIOCluster.deserialize] *)

(** [struct.pack('>i', x)]: four bytes, big-endian, two's complement. *)
Definition struct_pack_i (x : Z) : Py bytes :=
  if (- 2 ^ 31 <=? x) && (x <? 2 ^ 31) then
    ret (map (fun k => byte_of_Z (Z.shiftr x (8 * k))) [3; 2; 1; 0])
  else raise StructError.

Section Receive.

(** Values and types of zigpy other than [IOSample], and the table
    [foundation.COMMANDS] of zigpy. *)
Variable ForeignValue : Type.

Inductive Value : Type :=
| VSample (d : SampleDict)
| VForeign (v : ForeignValue).

Inductive ZType : Type :=
| T_IOSample
| T_Foreign (deserialize : bytes -> Py (ForeignValue * bytes)).

Definition Command : Type := (string * list ZType * bool)%type.

Variable foundation_COMMANDS : Z -> option Command.

Definition type_deserialize (type_ : ZType) (data : bytes)
  : Py (Value * bytes) :=
  match type_ with
  | T_IOSample =>
      ' (v, data) <- IOSample_deserialize data ;; ret (VSample v, data)
  | T_Foreign deserialize =>
      ' (v, data) <- deserialize data ;; ret (VForeign v, data)
  end.

(** [zigpy.types.deserialize(data, schema)]: one value per type of the
    schema, each type reading from what the one before left. *)
Fixpoint t_deserialize (data : bytes) (schema : list ZType)
  : Py (list Value * bytes) :=
  match schema with
  | [] => ret ([], data)
  | type_ :: schema' =>
      ' (value, data) <- type_deserialize type_ data ;;
      ' (result, data) <- t_deserialize data schema' ;;
      ret (value :: result, data)
  end.

Definition client_commands : dict Z Command :=
  [(0x0000, ("io_sample"%string, [T_IOSample], false))].

Definition server_commands : dict Z Command :=
  [(0x0000, ("io_sample"%string, [T_IOSample], false))].

(** The last component of the result: the decoded arguments, or the
    bytes as they came when the command is not known. *)
Inductive Payload : Type :=
| Raw (data : bytes)
| Args (value : list Value).

Definition DigitalIOCluster_deserialize (tsn frame_type : Z)
           (is_reply : bool) (command_id : Z) (data : bytes)
  : Py (Z * Z * bool * Payload) :=
  let decode (command_id : Z) (is_reply : bool)
             (schema : list ZType) (data : bytes) :=
    ' (value, data) <- t_deserialize data schema ;;
    (if match data with [] => false | _ => true end
     then emit (LogWarning "Data remains after deserializing ZCL frame" [])
     else ret tt) ;;;
    ret (tsn, command_id, is_reply, Args value) in
  if frame_type =? 1 then
    let commands := if is_reply then client_commands else server_commands in
    match dict_get Z.eqb commands command_id with
    | Some (_, schema, is_reply) =>
        let command_id := command_id + 256 in
        decode command_id is_reply schema data
    | None =>
        tsn_bytes <- struct_pack_i tsn ;;
        command_bytes <- struct_pack_i command_id ;;
        let data :=
          (slice_from tsn_bytes (-1) ++ slice_from command_bytes (-1) ++ data)%list in
        let new_command_id := ON_OFF_CMD in
        match dict_get Z.eqb commands new_command_id with
        | Some (_, schema, is_reply) =>
            ' (value, data) <- t_deserialize data schema ;;
            ret (tsn, new_command_id, is_reply, Args value)
        | None =>
            emit (LogWarning "Unknown cluster-specific command %s" [command_id]) ;;;
            ret (tsn, command_id + 256, is_reply, Raw data)
        end
    end
  else
    match foundation_COMMANDS command_id with
    | Some (_, schema, is_reply) =>
        decode command_id is_reply schema data
    | None =>
        emit (LogWarning "Unknown foundation command %s" [command_id]) ;;;
        ret (tsn, command_id, is_reply, Raw data)
    end.

End Receive.

Arguments VSample {ForeignValue} d.
Arguments VForeign {ForeignValue} v.
Arguments T_IOSample {ForeignValue}.
Arguments Raw {ForeignValue} data.
Arguments Args {ForeignValue} value.

(** ** Vocabulary of the statements *)

Arguments field values key%_string.

(** The three integers of the header. *)
Definition digital_mask_of (data : bytes) : Z := int_from_bytes (slice data 0 2).
Definition analog_mask_of (data : bytes) : Z := int_from_bytes (slice data 2 3).
Definition digital_sample_of (data : bytes) : Z := int_from_bytes (slice data 3 5).

(** Bit [i] of [x], as the comprehensions compute it. *)
Definition pin_bit (x i : Z) : Z := Z.land (Z.shiftr x i) 1.

(** The analog-enable list the decoder builds from byte 2. *)
Definition analog_pins_of (data : bytes) : list Z :=
  rev (bits_desc (analog_mask_of data) 8).

(** How many of the first [i] analog pins are enabled. *)
Definition enabled_before (analog_pins : list Z) (i : nat) : Z :=
  Z.of_nat (count_occ Z.eq_dec (firstn i analog_pins) 1).

(** The length the format asks for: the header of five bytes and one word
    of two bytes for each enabled analog pin. *)
Definition required_length (data : bytes) : Z :=
  5 + 2 * enabled_before (analog_pins_of data) 8.

(** The dictionary of a call that returned. *)
Definition decoded (data : bytes) : SampleDict :=
  match IOSample_deserialize data with
  | (_, Returned (values, _)) => values
  | (_, Raised _) => []
  end.

(** The opcode of a pin write. *)
Definition pin_opcode (command : Z) : Z :=
  if command =? 1 then DIO_PIN_HIGH else DIO_PIN_LOW.

(** A coordinator with zigpy_xbee, whose remote writes complete, and one
    without [remote_at_command]. *)
Definition zigpy_xbee_app : Application :=
  {| remote_at_command := Some (fun _ _ _ _ _ => Returned tt) |}.

Definition plain_app : Application := {| remote_at_command := None |}.

(** The pins the comprehension over [enumerate] keeps. *)
Definition active_pins_of (digital_pins : list Z) : list Z :=
  map fst (filter (fun ix => snd ix =? 1) (enumerate digital_pins)).

(** The update a pin with an endpoint gives rise to. *)
Definition update_of (digital_samples : list Z) (pin : Z) : list Event :=
  match dict_get Z.eqb ENDPOINT_MAP pin with
  | Some endpoint_id =>
      [UpdateAttribute endpoint_id ON_OFF_CMD
                       (nth (Z.to_nat pin) digital_samples 0)]
  | None => []
  end.

(** An update of the on/off attribute of the endpoint of some pin. *)
Definition is_pin_update (ev : Event) : Prop :=
  exists pin endpoint_id value,
    dict_get Z.eqb ENDPOINT_MAP pin = Some endpoint_id /\
    ev = UpdateAttribute endpoint_id ON_OFF_CMD value.

(** The updates a sample with enable mask [mask] and sample word [sample]
    stands for: one per entry of [ENDPOINT_MAP] whose pin is enabled. *)
Definition updates_of_words (mask sample : Z) : list Event :=
  flat_map (fun entry : Z * Z =>
              let (pin, endpoint_id) := entry in
              if Z.testbit mask pin
              then [UpdateAttribute endpoint_id ON_OFF_CMD
                                    (Z.b2z (Z.testbit sample pin))]
              else [])
           ENDPOINT_MAP.

(** * Properties *)

Example decode_header_only :
  IOSample_deserialize [x00; x03; x00; x00; x01] =
  ret ([("digital_pins", [1; 1; 0; 0; 0; 0; 0; 0; 0; 0; 0; 0; 0]);
        ("analog_pins", [0; 0; 0; 0; 0; 0; 0; 0]);
        ("digital_samples", [1; 0; 0; 0; 0; 0; 0; 0; 0; 0; 0; 0; 0]);
        ("analog_samples", [0; 0; 0; 0; 0; 0; 0; 0])]%string, []).
Proof. reflexivity. Qed.

(** ** Laws of the monad *)

Lemma bind_ret_l {A B : Type} (a : A) (f : A -> Py B) : bind (ret a) f = f a.
Proof. unfold bind, ret. now destruct (f a). Qed.

Lemma bind_ret_r {A : Type} (m : Py A) : bind m ret = m.
Proof. destruct m as [l [a|e]]; cbn; [now rewrite app_nil_r | reflexivity]. Qed.

Lemma bind_raise {A B : Type} (e : exn) (f : A -> Py B) :
  bind (raise e) f = raise e.
Proof. reflexivity. Qed.

Lemma bind_assoc {A B C : Type} (m : Py A) (f : A -> Py B) (g : B -> Py C) :
  bind (bind m f) g = bind m (fun a => bind (f a) g).
Proof.
  destruct m as [l [a|e]]; cbn; [|reflexivity].
  destruct (f a) as [l' [b|e]]; cbn; [|reflexivity].
  destruct (g b) as [l'' r]. now rewrite app_assoc.
Qed.

(** ** Slices and [int.from_bytes] *)

Lemma slice_beyond_end {A : Type} (data : list A) (i j : Z) :
  Z.of_nat (length data) <= i -> slice data i j = [].
Proof.
  intros Hi. unfold slice, clamp.
  destruct (i <? 0) eqn:Hneg; [apply Z.ltb_lt in Hneg; lia|].
  rewrite (Z.min_r i) by lia. rewrite Nat2Z.id.
  rewrite skipn_all. now rewrite firstn_nil.
Qed.

Lemma slice_length_le {A : Type} (data : list A) (i n : Z) :
  0 <= i -> 0 <= n -> (length (slice data i (i + n)) <= Z.to_nat n)%nat.
Proof.
  intros Hi Hn. unfold slice, clamp.
  destruct (i <? 0) eqn:Hneg; [apply Z.ltb_lt in Hneg; lia|].
  destruct (i + n <? 0) eqn:Hneg'; [apply Z.ltb_lt in Hneg'; lia|].
  etransitivity; [apply firstn_le_length|]. lia.
Qed.

Lemma int_from_bytes_nil : int_from_bytes [] = 0.
Proof. reflexivity. Qed.

Lemma byte_val_range (b : byte) : 0 <= byte_val b < 256.
Proof.
  unfold byte_val. pose proof (Byte.to_N_bounded b) as Hb.
  lia.
Qed.

Lemma fold_bytes_range (b : bytes) (acc : Z) :
  0 <= acc ->
  0 <= fold_left (fun acc x => acc * 256 + byte_val x) b acc
    < (acc + 1) * 256 ^ Z.of_nat (length b).
Proof.
  revert acc. induction b as [|x b IH]; intros acc Hacc.
  - simpl. lia.
  - cbn [fold_left length]. pose proof (byte_val_range x) as Hx.
    specialize (IH (acc * 256 + byte_val x) ltac:(lia)).
    rewrite Nat2Z.inj_succ, Z.pow_succ_r by lia.
    split; [lia|].
    eapply Z.lt_le_trans; [apply IH|].
    assert (0 < 256 ^ Z.of_nat (length b)) by (apply Z.pow_pos_nonneg; lia).
    nia.
Qed.

Lemma int_from_bytes_range (b : bytes) :
  0 <= int_from_bytes b < 256 ^ Z.of_nat (length b).
Proof.
  pose proof (fold_bytes_range b 0 ltac:(lia)) as H.
  unfold int_from_bytes. lia.
Qed.

(** A two-byte window always decodes to an unsigned 16-bit value. *)
Lemma word_range (data : bytes) (i : Z) :
  0 <= i -> 0 <= int_from_bytes (slice data i (i + 2)) < 65536.
Proof.
  intros Hi. pose proof (int_from_bytes_range (slice data i (i + 2))) as H.
  pose proof (slice_length_le data i 2 Hi ltac:(lia)) as Hl.
  split; [lia|]. eapply Z.lt_le_trans; [apply H|].
  change 65536 with (256 ^ 2).
  apply Z.pow_le_mono_r; lia.
Qed.

(** ** The bit lists *)

Lemma rev_bits_desc_13 (x : Z) :
  rev (bits_desc x num_bits) =
  map (pin_bit x) [0; 1; 2; 3; 4; 5; 6; 7; 8; 9; 10; 11; 12].
Proof. reflexivity. Qed.

Lemma rev_bits_desc_8 (x : Z) :
  rev (bits_desc x 8) = map (pin_bit x) [0; 1; 2; 3; 4; 5; 6; 7].
Proof. reflexivity. Qed.

Lemma pin_bit_testbit (x i : Z) :
  0 <= i -> pin_bit x i = Z.b2z (Z.testbit x i).
Proof.
  intros Hi. unfold pin_bit.
  change 1 with (Z.ones 1). rewrite Z.land_ones by lia.
  change (2 ^ 1) with 2. rewrite <- Z.bit0_mod.
  now rewrite Z.shiftr_spec by lia.
Qed.

Lemma pin_bit_01 (x i : Z) : 0 <= i -> pin_bit x i = 0 \/ pin_bit x i = 1.
Proof.
  intros Hi. rewrite pin_bit_testbit by assumption.
  destruct (Z.testbit x i); auto.
Qed.

(** ** The analog loop *)

Lemma enabled_before_0 (pins : list Z) : enabled_before pins 0 = 0.
Proof. reflexivity. Qed.

Lemma enabled_before_S (apin : Z) (pins : list Z) (i : nat) :
  enabled_before (apin :: pins) (S i) =
  (if apin =? 1 then 1 else 0) + enabled_before pins i.
Proof.
  unfold enabled_before. cbn [firstn].
  destruct (Z.eqb_spec apin 1) as [->|Hne].
  - rewrite count_occ_cons_eq by reflexivity. lia.
  - rewrite count_occ_cons_neq by assumption. lia.
Qed.

Lemma analog_loop_app (data : bytes) (pins : list Z) :
  forall idx acc,
    analog_loop data pins idx acc = acc ++ analog_loop data pins idx [].
Proof.
  induction pins as [|apin pins IH]; intros idx acc; cbn [analog_loop].
  - now rewrite app_nil_r.
  - destruct (apin =? 1).
    + rewrite IH, (IH _ ([] ++ _)). now rewrite app_assoc.
    + rewrite IH, (IH _ ([] ++ _)). now rewrite app_assoc.
Qed.

Lemma analog_loop_length (data : bytes) (pins : list Z) :
  forall idx acc,
    length (analog_loop data pins idx acc) = (length acc + length pins)%nat.
Proof.
  induction pins as [|apin pins IH]; intros idx acc; cbn [analog_loop length].
  - lia.
  - destruct (apin =? 1); rewrite IH, length_app; cbn [length]; lia.
Qed.

(** The value the loop leaves at position [i]: the window of an enabled pin
    starts at [5 + sample_index], and [sample_index] has grown by one for
    each enabled pin before it. *)
Lemma analog_loop_nth (data : bytes) (pins : list Z) :
  forall idx i,
    (i < length pins)%nat ->
    nth i (analog_loop data pins idx []) 0 =
    if nth i pins 0 =? 1 then
      int_from_bytes (slice data (5 + (idx + enabled_before pins i))
                                 (7 + (idx + enabled_before pins i)))
    else 0.
Proof.
  induction pins as [|apin pins IH]; intros idx i Hi; cbn [length] in Hi.
  - lia.
  - cbn [analog_loop]. destruct i as [|i].
    + rewrite enabled_before_0, Z.add_0_r. cbn [nth].
      destruct (apin =? 1); now rewrite analog_loop_app.
    + rewrite enabled_before_S. cbn [nth].
      destruct (apin =? 1); rewrite analog_loop_app; cbn [app nth];
        rewrite IH by lia;
        destruct (nth i pins 0 =? 1); try reflexivity.
      now replace (idx + 1 + enabled_before pins i)
        with (idx + (1 + enabled_before pins i)) by lia.
Qed.

Lemma enabled_before_nonneg (pins : list Z) (i : nat) :
  0 <= enabled_before pins i.
Proof. unfold enabled_before. lia. Qed.

(** ** The decoded sample *)

Lemma IOSample_deserialize_eq (data : bytes) :
  IOSample_deserialize data =
  ret ([("digital_pins", map (pin_bit (digital_mask_of data))
                             [0; 1; 2; 3; 4; 5; 6; 7; 8; 9; 10; 11; 12]);
        ("analog_pins", analog_pins_of data);
        ("digital_samples", map (pin_bit (digital_sample_of data))
                                [0; 1; 2; 3; 4; 5; 6; 7; 8; 9; 10; 11; 12]);
        ("analog_samples", analog_loop data (analog_pins_of data) 0 [])]%string,
       []).
Proof. reflexivity. Qed.

Lemma analog_pins_of_length (data : bytes) : length (analog_pins_of data) = 8%nat.
Proof. reflexivity. Qed.

Lemma analog_sample_zero (data : bytes) (i : nat) :
  (i < 8)%nat ->
  nth i (analog_pins_of data) 0 = 0 ->
  nth i (analog_loop data (analog_pins_of data) 0 []) 0 = 0.
Proof.
  intros Hi Hoff. rewrite analog_loop_nth by (rewrite analog_pins_of_length; lia).
  now rewrite Hoff.
Qed.

Lemma analog_sample_range (data : bytes) (i : nat) :
  0 <= nth i (analog_loop data (analog_pins_of data) 0 []) 0 < 65536.
Proof.
  destruct (Nat.lt_ge_cases i 8) as [Hi|Hi].
  - rewrite analog_loop_nth by (rewrite analog_pins_of_length; lia).
    destruct (_ =? 1); [|lia].
    pose proof (enabled_before_nonneg (analog_pins_of data) i).
    replace (7 + (0 + enabled_before (analog_pins_of data) i))
      with (5 + (0 + enabled_before (analog_pins_of data) i) + 2) by lia.
    apply word_range. lia.
  - rewrite nth_overflow; [lia|].
    rewrite analog_loop_length, analog_pins_of_length. cbn [length]. lia.
Qed.

Lemma analog_loop_past_end (data : bytes) (pins : list Z) :
  forall idx,
    0 <= idx -> Z.of_nat (length data) <= 5 + idx ->
    analog_loop data pins idx [] = repeat 0 (length pins).
Proof.
  induction pins as [|apin pins IH]; intros idx Hidx Hlen; cbn [analog_loop].
  - reflexivity.
  - destruct (apin =? 1); rewrite analog_loop_app; cbn [app length repeat].
    + rewrite slice_beyond_end by lia. rewrite IH by lia. reflexivity.
    + rewrite IH by lia. reflexivity.
Qed.

(** X1. For an enabled analog pin the decoder reads the two bytes that
    start at [5 + m], where [m] is the number of enabled analog pins
    before it, as one big-endian number. *)
Lemma analog_sample_window (data : bytes) (i : nat) :
  (i < 8)%nat ->
  nth i (analog_pins_of data) 0 = 1 ->
  let m := enabled_before (analog_pins_of data) i in
  nth i (field (decoded data) "analog_samples") 0 =
  int_from_bytes (slice data (5 + m) (7 + m)).
Proof.
  intros Hi Hon m. unfold decoded. rewrite IOSample_deserialize_eq.
  cbn [ret field dict_get String.eqb Ascii.eqb Bool.eqb].
  rewrite analog_loop_nth by (rewrite analog_pins_of_length; lia).
  rewrite Hon. cbn [Z.eqb Pos.eqb]. now rewrite !Z.add_0_l.
Qed.

(** C1. The claim: the m-th enabled analog pin is decoded from the bytes
    [5+2m : 7+2m], two bytes consumed per enabled pin.  The code steps its
    [sample_index] by one: with analog pins 0 and 1 enabled and the sample
    bytes 01 02 03 04, the second pin is read from bytes [6:8] (0x0203)
    and not from bytes [7:9] (0x0304). *)
Theorem analog_windows_overlap :
  let data := [x00; x00; x03; x00; x00; x01; x02; x03; x04] in
  analog_pins_of data = [1; 1; 0; 0; 0; 0; 0; 0] /\
  field (decoded data) "analog_samples" = [258; 515; 0; 0; 0; 0; 0; 0] /\
  int_from_bytes (slice data 5 7) = 258 /\
  int_from_bytes (slice data 6 8) = 515 /\
  int_from_bytes (slice data 7 9) = 772.
Proof. repeat split. Qed.

(** C2, as the claim has it, fails: a buffer of five bytes whose analog
    mask enables one pin is shorter than the seven bytes asked for, and
    the decoder returns a complete dictionary for it. *)
Lemma short_buffer_is_decoded :
  let data := [x00; x00; x01; x00; x00] in
  Z.of_nat (length data) < required_length data /\
  IOSample_deserialize data =
  ret ([("digital_pins", [0; 0; 0; 0; 0; 0; 0; 0; 0; 0; 0; 0; 0]);
        ("analog_pins", [1; 0; 0; 0; 0; 0; 0; 0]);
        ("digital_samples", [0; 0; 0; 0; 0; 0; 0; 0; 0; 0; 0; 0; 0]);
        ("analog_samples", [0; 0; 0; 0; 0; 0; 0; 0])]%string, []) /\
  ~ (exists e, snd (IOSample_deserialize data) = Raised e).
Proof.
  repeat split. intros [e He]. discriminate He.
Qed.

(** C2, amended. For every buffer shorter than the header of five bytes
    plus two bytes per enabled analog pin, the decoder does not fail: it
    returns the four sequences in full (13, 8, 13 and 8 entries) with no
    data left over, and no exception is raised; when the buffer holds no
    byte after the header, every analog value is 0. *)
Theorem short_buffer_returns (data : bytes) :
  Z.of_nat (length data) < required_length data ->
  exists dp ap ds av,
    IOSample_deserialize data =
    ret ([("digital_pins", dp); ("analog_pins", ap);
          ("digital_samples", ds); ("analog_samples", av)]%string, []) /\
    length dp = 13%nat /\ length ap = 8%nat /\
    length ds = 13%nat /\ length av = 8%nat /\
    (forall e, snd (IOSample_deserialize data) <> Raised e) /\
    (Z.of_nat (length data) <= 5 -> av = [0; 0; 0; 0; 0; 0; 0; 0]).
Proof.
  intros _. rewrite IOSample_deserialize_eq.
  do 4 eexists. split; [reflexivity|].
  repeat split.
  - rewrite analog_loop_length, analog_pins_of_length. reflexivity.
  - intros e He. discriminate He.
  - intros Hlen. rewrite analog_loop_past_end by lia.
    now rewrite analog_pins_of_length.
Qed.

Lemma short_buffer_returns_witness :
  let data := [x00; x00; x01; x00; x00] in
  Z.of_nat (length data) < required_length data /\
  exists dp ap ds av,
    IOSample_deserialize data =
    ret ([("digital_pins", dp); ("analog_pins", ap);
          ("digital_samples", ds); ("analog_samples", av)]%string, []) /\
    length dp = 13%nat /\ length ap = 8%nat /\
    length ds = 13%nat /\ length av = 8%nat /\
    (forall e, snd (IOSample_deserialize data) <> Raised e) /\
    (Z.of_nat (length data) <= 5 -> av = [0; 0; 0; 0; 0; 0; 0; 0]).
Proof.
  split; [reflexivity|].
  apply (short_buffer_returns [x00; x00; x01; x00; x00]). reflexivity.
Defined.

(** ** The order of the bits *)

Lemma decoded_digital_pins (data : bytes) :
  field (decoded data) "digital_pins" =
  map (pin_bit (digital_mask_of data)) [0; 1; 2; 3; 4; 5; 6; 7; 8; 9; 10; 11; 12].
Proof. reflexivity. Qed.

Lemma decoded_digital_samples (data : bytes) :
  field (decoded data) "digital_samples" =
  map (pin_bit (digital_sample_of data)) [0; 1; 2; 3; 4; 5; 6; 7; 8; 9; 10; 11; 12].
Proof. reflexivity. Qed.

Lemma nth_pin_bits (x : Z) (i : nat) :
  (i < 13)%nat ->
  nth i (map (pin_bit x) [0; 1; 2; 3; 4; 5; 6; 7; 8; 9; 10; 11; 12]) 0 =
  Z.b2z (Z.testbit x (Z.of_nat i)).
Proof.
  intros Hi. rewrite <- pin_bit_testbit by lia.
  do 13 (destruct i as [|i]; [reflexivity|]). lia.
Qed.

(** C4, as the claim has it, fails: with only bit 12 of the enable mask
    and of the sample word set, pin 0 is decoded as 0 and pin 12 as 1. *)
Lemma mask_bit12_is_not_pin0 :
  let data := [x10; x00; x00; x10; x00] in
  Z.testbit (digital_mask_of data) 12 = true /\
  Z.testbit (digital_sample_of data) 12 = true /\
  nth 0 (field (decoded data) "digital_pins") 0 = 0 /\
  nth 12 (field (decoded data) "digital_pins") 0 = 1 /\
  nth 0 (field (decoded data) "digital_samples") 0 = 0 /\
  nth 12 (field (decoded data) "digital_samples") 0 = 1.
Proof. repeat split. Qed.

(** C4, amended. For every buffer and every pin index i in 0..12, the
    decoded [digital_pins[i]] is bit i of the 16-bit enable mask (bit 0 is
    pin 0, bit 12 is pin 12: the bits are listed from bit 12 down and the
    list is then reversed), and [digital_samples[i]] is bit i of the
    sample word in the same way. *)
Theorem digital_pin_is_mask_bit (data : bytes) (i : nat) :
  (i < 13)%nat ->
  nth i (field (decoded data) "digital_pins") 0 =
    Z.b2z (Z.testbit (digital_mask_of data) (Z.of_nat i)) /\
  nth i (field (decoded data) "digital_samples") 0 =
    Z.b2z (Z.testbit (digital_sample_of data) (Z.of_nat i)).
Proof.
  intros Hi. rewrite decoded_digital_pins, decoded_digital_samples.
  split; now apply nth_pin_bits.
Qed.

Lemma digital_pin_is_mask_bit_witness :
  let data := [x10; x01; x00; x00; x02] in
  (12 < 13)%nat /\
  nth 12 (field (decoded data) "digital_pins") 0 =
    Z.b2z (Z.testbit (digital_mask_of data) (Z.of_nat 12)) /\
  nth 12 (field (decoded data) "digital_samples") 0 =
    Z.b2z (Z.testbit (digital_sample_of data) (Z.of_nat 12)).
Proof.
  split; [lia|].
  apply (digital_pin_is_mask_bit [x10; x01; x00; x00; x02] 12). lia.
Defined.

(** C5. A buffer whose digital-enable mask is 0x0001 decodes to
    [digital_pins[0] = 1] and [digital_pins[i] = 0] for i in 1..12. *)
Theorem mask_0001_enables_pin0 (data : bytes) :
  digital_mask_of data = 1 ->
  field (decoded data) "digital_pins" = [1; 0; 0; 0; 0; 0; 0; 0; 0; 0; 0; 0; 0].
Proof.
  intros Hmask. rewrite decoded_digital_pins, Hmask. reflexivity.
Qed.

Lemma mask_0001_enables_pin0_witness :
  let data := [x00; x01; x00; x00; x00] in
  digital_mask_of data = 1 /\
  field (decoded data) "digital_pins" = [1; 0; 0; 0; 0; 0; 0; 0; 0; 0; 0; 0; 0].
Proof.
  split; [reflexivity|].
  apply (mask_0001_enables_pin0 [x00; x01; x00; x00; x00]). reflexivity.
Defined.

(** ** Shape of the result *)

(** C8. For every buffer that holds the header and the analog words its
    mask asks for, the decoder returns 13 digital enables, 13 digital
    values, 8 analog enables and 8 analog values; the analog value is 0
    at every index whose enable entry is 0, and every analog value is an
    unsigned 16-bit number. *)
Theorem decoded_shape (data : bytes) :
  required_length data <= Z.of_nat (length data) ->
  exists dp ap ds av,
    IOSample_deserialize data =
    ret ([("digital_pins", dp); ("analog_pins", ap);
          ("digital_samples", ds); ("analog_samples", av)]%string, []) /\
    length dp = 13%nat /\ length ds = 13%nat /\
    length ap = 8%nat /\ length av = 8%nat /\
    (forall i, (i < 8)%nat -> nth i ap 0 = 0 -> nth i av 0 = 0) /\
    (forall i, 0 <= nth i av 0 < 65536).
Proof.
  intros _. rewrite IOSample_deserialize_eq.
  do 4 eexists. split; [reflexivity|].
  split; [reflexivity|]. split; [reflexivity|]. split; [reflexivity|].
  split; [|split].
  - rewrite analog_loop_length, analog_pins_of_length. reflexivity.
  - apply analog_sample_zero.
  - apply analog_sample_range.
Qed.

Lemma decoded_shape_witness :
  let data := [x00; x03; x05; x00; x01; x0a; x0b; x0c; x0d] in
  required_length data <= Z.of_nat (length data) /\
  exists dp ap ds av,
    IOSample_deserialize data =
    ret ([("digital_pins", dp); ("analog_pins", ap);
          ("digital_samples", ds); ("analog_samples", av)]%string, []) /\
    length dp = 13%nat /\ length ds = 13%nat /\
    length ap = 8%nat /\ length av = 8%nat /\
    (forall i, (i < 8)%nat -> nth i ap 0 = 0 -> nth i av 0 = 0) /\
    (forall i, 0 <= nth i av 0 < 65536).
Proof.
  split; [vm_compute; discriminate|].
  apply (decoded_shape [x00; x03; x05; x00; x01; x0a; x0b; x0c; x0d]).
  vm_compute; discriminate.
Defined.

(** C10. The decoder is total: for every buffer it returns the four
    sequences, of 13, 8, 13 and 8 entries, leaves no data over and raises
    nothing; a slice that starts at or past the end of the buffer is
    empty and decodes to 0, so that the empty buffer gives zeros only. *)
Theorem deserialize_total :
  (forall data : bytes,
      exists dp ap ds av,
        IOSample_deserialize data =
        ret ([("digital_pins", dp); ("analog_pins", ap);
              ("digital_samples", ds); ("analog_samples", av)]%string, []) /\
        length dp = 13%nat /\ length ap = 8%nat /\
        length ds = 13%nat /\ length av = 8%nat) /\
  (forall (data : bytes) (k : nat) (j : Z),
      slice data (Z.of_nat (length data + k)) j = [] /\
      int_from_bytes (slice data (Z.of_nat (length data + k)) j) = 0) /\
  IOSample_deserialize [] =
  ret ([("digital_pins", [0; 0; 0; 0; 0; 0; 0; 0; 0; 0; 0; 0; 0]);
        ("analog_pins", [0; 0; 0; 0; 0; 0; 0; 0]);
        ("digital_samples", [0; 0; 0; 0; 0; 0; 0; 0; 0; 0; 0; 0; 0]);
        ("analog_samples", [0; 0; 0; 0; 0; 0; 0; 0])]%string, []).
Proof.
  split; [|split].
  - intros data. rewrite IOSample_deserialize_eq.
    do 4 eexists. split; [reflexivity|].
    split; [reflexivity|]. split; [reflexivity|]. split; [reflexivity|].
    rewrite analog_loop_length, analog_pins_of_length. reflexivity.
  - intros data k j. rewrite slice_beyond_end by lia. split; reflexivity.
  - reflexivity.
Qed.

(** ** Pin commands *)



(** Without [remote_at_command] the device logs a warning and hands back
    [None], which the command cannot await. *)
Lemma pin_command_without_remote_at :
  XBeeOnOff_command {| _application := plain_app; nwk := 0x1234 |} 0xd0 1 [] =
  ([LogWarning "Remote At Command not supported by this coordinator" []],
   Raised TypeError).
Proof. reflexivity. Qed.

(** C6, as the claim has it, fails: on endpoint 0x9999, which has no pin
    name, the command 1 raises nothing and is passed to the parent's
    [command]. *)
Lemma unknown_endpoint_is_forwarded :
  let device := {| _application := zigpy_xbee_app; nwk := 0x1234 |} in
  dict_get Z.eqb ep_id_2_pin 0x9999 = None /\
  XBeeOnOff_command device 0x9999 1 [] = ret (SuperCommand 1 []) /\
  ~ (exists e, snd (XBeeOnOff_command device 0x9999 1 []) = Raised e).
Proof.
  repeat split. intros [e He]. discriminate He.
Qed.

(** C6, amended. For every endpoint that is not in [ep_id_2_pin] and every
    command, 0 and 1 included, the command fails with nothing and writes
    no pin: it logs nothing, sends nothing, and returns what the parent's
    [command(command, *args)] gives. *)
Theorem unmapped_endpoint_forwards (device : XbeeSensor)
        (endpoint_id command : Z) (args : list Z) :
  dict_get Z.eqb ep_id_2_pin endpoint_id = None ->
  XBeeOnOff_command device endpoint_id command args =
  ret (SuperCommand command args).
Proof.
  intros Hnone. unfold XBeeOnOff_command. rewrite Hnone.
  now destruct (negb _).
Qed.

Lemma unmapped_endpoint_forwards_witness :
  dict_get Z.eqb ep_id_2_pin 0x9999 = None /\
  XBeeOnOff_command {| _application := plain_app; nwk := 0 |} 0x9999 0 [7] =
  ret (SuperCommand 0 [7]).
Proof.
  split; [reflexivity|].
  apply (unmapped_endpoint_forwards
           {| _application := plain_app; nwk := 0 |} 0x9999 0 [7]).
  reflexivity.
Defined.

(** X15. A command other than 0 and 1 goes to the parent's [command]
    with its arguments, on every endpoint, named or not: nothing is sent
    and nothing is logged. *)
Lemma other_command_forwards (device : XbeeSensor)
      (endpoint_id command : Z) (args : list Z) :
  command <> 0 -> command <> 1 ->
  XBeeOnOff_command device endpoint_id command args =
  ret (SuperCommand command args).
Proof.
  intros H0 H1. unfold XBeeOnOff_command. cbn [existsb].
  destruct (Z.eqb_spec command 0); [contradiction|].
  destruct (Z.eqb_spec command 1); [contradiction|].
  reflexivity.
Qed.

(** ** Pin-state updates *)

Lemma list_getitem_in_range {A : Type} (l : list A) (i : Z) (d : A) :
  0 <= i < Z.of_nat (length l) ->
  list_getitem l i = ret (nth (Z.to_nat i) l d).
Proof.
  intros Hi. unfold list_getitem.
  assert (Hneg : (i <? 0) = false) by (apply Z.ltb_ge; lia).
  cbv zeta. rewrite Hneg, Hneg.
  destruct (nth_error l (Z.to_nat i)) as [v|] eqn:Hnth.
  - now rewrite (nth_error_nth _ _ d Hnth).
  - apply nth_error_None in Hnth. lia.
Qed.

(** The pins that have an endpoint. *)
Lemma ENDPOINT_MAP_keys (pin : Z) :
  dict_mem Z.eqb pin ENDPOINT_MAP = true ->
  In pin [0; 1; 2; 3; 4; 5; 10; 11; 12].
Proof.
  unfold dict_mem, ENDPOINT_MAP. cbn [dict_get In].
  repeat match goal with
         | |- context [?k =? pin] =>
             destruct (Z.eqb_spec k pin); [subst; tauto|]
         end.
  discriminate.
Qed.

(** One turn of the loop for a pin that has an endpoint and a sample. *)
Lemma update_pins_cons (values : SampleDict) (ds : list Z)
      (pin endpoint_id : Z) (rest : list Z) :
  dict_get Z.eqb ENDPOINT_MAP pin = Some endpoint_id ->
  device_on_off endpoint_id = ret tt ->
  dict_get String.eqb values "digital_samples"%string = Some ds ->
  0 <= pin < Z.of_nat (length ds) ->
  update_pins values (pin :: rest) =
  bind (emit (UpdateAttribute endpoint_id ON_OFF_CMD (nth (Z.to_nat pin) ds 0)))
       (fun _ => update_pins values rest).
Proof.
  intros Hep Hon Hds Hpin. cbn [update_pins]. unfold getitem.
  rewrite Hep, Hds, bind_ret_l, Hon, !bind_ret_l.
  rewrite (list_getitem_in_range ds pin 0 Hpin). now rewrite bind_ret_l.
Qed.

(** When every active pin has an endpoint and a sample, the loop runs to
    its end and gives one update per pin, in the order of the pins. *)
Lemma update_pins_mapped (values : SampleDict) (ds : list Z) (pins : list Z) :
  dict_get String.eqb values "digital_samples"%string = Some ds ->
  Forall (fun pin => dict_mem Z.eqb pin ENDPOINT_MAP = true /\
                     pin < Z.of_nat (length ds)) pins ->
  update_pins values pins = (flat_map (update_of ds) pins, Returned tt).
Proof.
  intros Hds Hall. induction Hall as [|pin pins [Hkey Hlt] _ IH].
  - reflexivity.
  - apply ENDPOINT_MAP_keys in Hkey. cbn [In] in Hkey.
    repeat (destruct Hkey as [<- | Hkey];
            [erewrite update_pins_cons by (reflexivity || eassumption || lia);
             rewrite IH; reflexivity|]).
    contradiction.
Qed.

(** The first active pin without an endpoint stops the loop. *)
Lemma update_pins_unmapped (values : SampleDict) (pin : Z) (rest : list Z) :
  dict_get Z.eqb ENDPOINT_MAP pin = None ->
  update_pins values (pin :: rest) = raise KeyError.
Proof.
  intros Hnone. cbn [update_pins]. unfold getitem at 1. now rewrite Hnone.
Qed.

Lemma in_enumerate_from {A : Type} (l : list A) :
  forall (s : nat) (k : Z) (x : A),
    In (k, x) (combine (map Z.of_nat (seq s (length l))) l) ->
    exists i, k = Z.of_nat (s + i) /\ nth_error l i = Some x.
Proof.
  induction l as [|y l IH]; intros s k x Hin; cbn in Hin.
  - contradiction.
  - destruct Hin as [Heq | Hin].
    + inversion Heq; subst. exists 0%nat. split; [f_equal; lia | reflexivity].
    + destruct (IH (S s) k x Hin) as (i & Hk & Hnth).
      exists (S i). split; [rewrite Hk; f_equal; lia | exact Hnth].
Qed.

Lemma active_pins_of_spec (digital_pins : list Z) (pin : Z) :
  In pin (active_pins_of digital_pins) ->
  0 <= pin < Z.of_nat (length digital_pins) /\
  nth (Z.to_nat pin) digital_pins 0 = 1.
Proof.
  unfold active_pins_of, enumerate. intros Hin.
  apply in_map_iff in Hin. destruct Hin as ([k x] & Hfst & Hin).
  apply filter_In in Hin. destruct Hin as [Hin Hone].
  cbn [fst snd] in *. subst k. apply Z.eqb_eq in Hone. subst x.
  apply in_enumerate_from in Hin. destruct Hin as (i & -> & Hnth).
  cbn [Nat.add]. rewrite Nat2Z.id.
  split.
  - assert (i < length digital_pins)%nat
      by (apply nth_error_Some; congruence). lia.
  - now apply nth_error_nth.
Qed.

(** X6. A sample in which every enabled pin has an endpoint, and that has
    a sample entry for every pin: the handler runs to its end and gives
    exactly one update per enabled pin, the pin's endpoint with the pin's
    sample, in ascending order of the pins. *)
Lemma handle_mapped_sample (tsn : Z) (values : SampleDict) (dp ds : list Z) :
  dict_get String.eqb values "digital_pins"%string = Some dp ->
  dict_get String.eqb values "digital_samples"%string = Some ds ->
  (length dp <= length ds)%nat ->
  (forall pin, 0 <= pin -> nth (Z.to_nat pin) dp 0 = 1 ->
               dict_mem Z.eqb pin ENDPOINT_MAP = true) ->
  handle_cluster_general_request tsn ON_OFF_CMD [values] =
  (flat_map (update_of ds) (active_pins_of dp), Returned tt).
Proof.
  intros Hdp Hds Hlen Hmapped.
  unfold handle_cluster_general_request, dict_mem, getitem.
  cbn [Z.eqb ON_OFF_CMD].
  rewrite (list_getitem_in_range [values] 0 []) by (cbn [length]; lia).
  cbn [Z.to_nat nth].
  rewrite bind_ret_l, Hdp, Hds. cbn [andb]. rewrite bind_ret_l.
  apply update_pins_mapped; [exact Hds|].
  apply Forall_forall. intros pin Hin.
  destruct (active_pins_of_spec dp pin Hin) as [Hrange Hone].
  split; [apply Hmapped; [lia | exact Hone] | lia].
Qed.

(** C3. The claim: one update per enabled pin that has an endpoint, in
    ascending order, and an enabled pin without an endpoint (6, 7, 8, 9)
    is skipped.  The code looks the pin up with [ENDPOINT_MAP[pin]]: with
    pins 0, 6 and 10 enabled it updates endpoint 0xd0, raises KeyError at
    pin 6 and never updates endpoint 0xda. *)
Theorem unmapped_pin_raises :
  let data := [x04; x41; x00; x04; x01] in
  field (decoded data) "digital_pins" = [1; 0; 0; 0; 0; 0; 1; 0; 0; 0; 1; 0; 0] /\
  field (decoded data) "digital_samples" = [1; 0; 0; 0; 0; 0; 0; 0; 0; 0; 1; 0; 0] /\
  dict_get Z.eqb ENDPOINT_MAP 6 = None /\
  dict_get Z.eqb ENDPOINT_MAP 10 = Some 0xda /\
  handle_cluster_general_request 0 ON_OFF_CMD [decoded data] =
    ([UpdateAttribute 0xd0 ON_OFF_CMD 1], Raised KeyError).
Proof. repeat split. Qed.

(** With pins 0 and 10 enabled, both of which have an endpoint, the updates
    come out in ascending order of the pins. *)
Example mapped_pins_are_updated :
  handle_cluster_general_request 0 ON_OFF_CMD
    [decoded [x04; x01; x00; x04; x00]] =
  ([UpdateAttribute 0xd0 ON_OFF_CMD 0; UpdateAttribute 0xda ON_OFF_CMD 1],
   Returned tt).
Proof. reflexivity. Qed.

(** ** The receive path *)

Lemma struct_pack_i_last (x : Z) :
  - 2 ^ 31 <= x < 2 ^ 31 ->
  exists packed,
    struct_pack_i x = ret packed /\ slice_from packed (-1) = [byte_of_Z x].
Proof.
  intros Hx. unfold struct_pack_i.
  destruct (Z.leb_spec (- 2 ^ 31) x); [|lia].
  destruct (Z.ltb_spec x (2 ^ 31)); [|lia].
  eexists. split; reflexivity.
Qed.

(** C7, as the claim has it, fails: a cluster command with identifier 5
    is not rejected; its transaction number and identifier are put back
    in front of the data and the whole is decoded as an IO sample. *)
Lemma unknown_command_decoded_as_sample :
  DigitalIOCluster_deserialize unit (fun _ => None) 0 1 false 5 [x00; x00; x01] =
  ret (0, ON_OFF_CMD, false,
       Args [VSample
               [("digital_pins", [1; 0; 1; 0; 0; 0; 0; 0; 0; 0; 0; 0; 0]);
                ("analog_pins", [0; 0; 0; 0; 0; 0; 0; 0]);
                ("digital_samples", [1; 0; 0; 0; 0; 0; 0; 0; 0; 0; 0; 0; 0]);
                ("analog_samples", [0; 0; 0; 0; 0; 0; 0; 0])]%string]).
Proof. reflexivity. Qed.

(** C7, amended. For every cluster command (frame type 1) whose
    identifier is not 0x0000, the io_sample command, and with transaction
    number and identifier in the range of [struct.pack('>i', ...)], the
    receive path rejects nothing: it puts the low byte of the transaction
    number and the low byte of the identifier in front of the data,
    decodes that as an IO sample and returns it under identifier 0x0000,
    without a warning. *)
Theorem unknown_cluster_command_decoded
        (ForeignValue : Type)
        (foundation_COMMANDS : Z -> option (Command ForeignValue))
        (tsn : Z) (is_reply : bool) (command_id : Z) (data : bytes) :
  command_id <> 0 ->
  - 2 ^ 31 <= tsn < 2 ^ 31 ->
  - 2 ^ 31 <= command_id < 2 ^ 31 ->
  DigitalIOCluster_deserialize ForeignValue foundation_COMMANDS
                               tsn 1 is_reply command_id data =
  ret (tsn, ON_OFF_CMD, false,
       Args [VSample (decoded (byte_of_Z tsn :: byte_of_Z command_id :: data))]).
Proof.
  intros Hid Htsn Hcmd.
  destruct (struct_pack_i_last tsn Htsn) as (pt & Hpt & Hlt).
  destruct (struct_pack_i_last command_id Hcmd) as (pc & Hpc & Hlc).
  unfold DigitalIOCluster_deserialize. cbn [Z.eqb Pos.eqb].
  assert (Hnone : forall b : bool,
             dict_get Z.eqb (if b then client_commands ForeignValue
                             else server_commands ForeignValue) command_id = None).
  { intros []; cbn [dict_get client_commands server_commands];
      destruct (Z.eqb_spec 0 command_id); congruence. }
  rewrite Hnone, Hpt, Hpc. cbn [bind ret app].
  rewrite Hlt, Hlc. destruct is_reply; reflexivity.
Qed.

Lemma unknown_cluster_command_decoded_witness :
  5 <> 0 /\ - 2 ^ 31 <= 0 < 2 ^ 31 /\ - 2 ^ 31 <= 5 < 2 ^ 31 /\
  DigitalIOCluster_deserialize unit (fun _ => None) 0 1 true 5 [x00; x00; x01] =
  ret (0, ON_OFF_CMD, false,
       Args [VSample (decoded (byte_of_Z 0 :: byte_of_Z 5 :: [x00; x00; x01]))]).
Proof.
  split; [lia|]. split; [lia|]. split; [lia|].
  apply (unknown_cluster_command_decoded unit (fun _ => None) 0 true 5
                                         [x00; x00; x01]); lia.
Defined.

(** The io_sample command itself is decoded under identifier 0x0100. *)
Lemma io_sample_command_decoded
      (ForeignValue : Type)
      (foundation_COMMANDS : Z -> option (Command ForeignValue))
      (tsn : Z) (is_reply : bool) (data : bytes) :
  DigitalIOCluster_deserialize ForeignValue foundation_COMMANDS
                               tsn 1 is_reply 0 data =
  ret (tsn, 256, false, Args [VSample (decoded data)]).
Proof. destruct is_reply; reflexivity. Qed.

(** X19. A frame that is not a cluster command and whose identifier
    [foundation.COMMANDS] does not list raises nothing: it is given back
    as it came (same identifier, same reply flag, data not decoded), with
    one warning that names the identifier. *)
Lemma unknown_foundation_command
      (ForeignValue : Type)
      (foundation_COMMANDS : Z -> option (Command ForeignValue))
      (tsn frame_type : Z) (is_reply : bool) (command_id : Z) (data : bytes) :
  frame_type <> 1 ->
  foundation_COMMANDS command_id = None ->
  DigitalIOCluster_deserialize ForeignValue foundation_COMMANDS
                               tsn frame_type is_reply command_id data =
  ([LogWarning "Unknown foundation command %s" [command_id]],
   Returned (tsn, command_id, is_reply, Raw data)).
Proof.
  intros Hft Hnone. unfold DigitalIOCluster_deserialize.
  destruct (Z.eqb_spec frame_type 1); [contradiction|].
  now rewrite Hnone.
Qed.


(** * Further properties of the decoder *)

Lemma byte_val_of_Z (z : Z) : byte_val (byte_of_Z z) = z mod 256.
Proof.
  unfold byte_val, byte_of_Z.
  pose proof (Z.mod_pos_bound z 256 ltac:(lia)) as Hm.
  destruct (Byte.of_N (Z.to_N (z mod 256))) as [b|] eqn:Hb.
  - apply Byte.to_of_N in Hb. rewrite Hb. lia.
  - apply Byte.of_N_None_iff in Hb. lia.
Qed.

(** Bytes appended to a buffer do not change a slice that ends inside it. *)
Lemma slice_app_l {A : Type} (d e : list A) (i j : Z) :
  0 <= i -> 0 <= j -> j <= Z.of_nat (length d) ->
  slice (d ++ e) i j = slice d i j.
Proof.
  intros Hi Hj Hlen. unfold slice, clamp.
  rewrite length_app, Nat2Z.inj_add.
  destruct (Z.ltb_spec i 0); [lia|]. destruct (Z.ltb_spec j 0); [lia|].
  rewrite (Z.min_l j), (Z.min_l j) by lia.
  destruct (Z.le_gt_cases i (Z.of_nat (length d))) as [Hin|Hout].
  - rewrite (Z.min_l i), (Z.min_l i) by lia.
    rewrite skipn_app, firstn_app, length_skipn.
    replace (Z.to_nat i - length d)%nat with 0%nat by lia.
    replace (Z.to_nat (j - i) - (length d - Z.to_nat i))%nat with 0%nat by lia.
    cbn [skipn firstn]. now rewrite app_nil_r.
  - replace (Z.to_nat (j - Z.min i (Z.of_nat (length d) + Z.of_nat (length e))))
      with 0%nat by lia.
    replace (Z.to_nat (j - Z.min i (Z.of_nat (length d)))) with 0%nat by lia.
    reflexivity.
Qed.

(** The number of enabled pins of a whole list. *)
Lemma analog_loop_app_data (d e : bytes) (pins : list Z) :
  forall idx,
    0 <= idx ->
    (0 < Z.of_nat (count_occ Z.eq_dec pins 1) ->
     6 + idx + Z.of_nat (count_occ Z.eq_dec pins 1) <= Z.of_nat (length d)) ->
    analog_loop (d ++ e) pins idx [] = analog_loop d pins idx [].
Proof.
  induction pins as [|apin pins IH]; intros idx Hidx Hfit; cbn [analog_loop].
  - reflexivity.
  - destruct (Z.eqb_spec apin 1) as [->|Hne].
    + rewrite count_occ_cons_eq in Hfit by reflexivity.
      rewrite (analog_loop_app (d ++ e)), (analog_loop_app d).
      rewrite slice_app_l by lia. rewrite IH by lia. reflexivity.
    + rewrite count_occ_cons_neq in Hfit by assumption.
      rewrite (analog_loop_app (d ++ e)), (analog_loop_app d).
      rewrite IH by lia. reflexivity.
Qed.

Lemma decoded_analog_pins (data : bytes) :
  field (decoded data) "analog_pins" =
  map (pin_bit (analog_mask_of data)) [0; 1; 2; 3; 4; 5; 6; 7].
Proof. reflexivity. Qed.

Lemma pin_bit_mod (x i n : Z) :
  0 <= i < n -> pin_bit (x mod 2 ^ n) i = pin_bit x i.
Proof.
  intros Hi. rewrite !pin_bit_testbit by lia.
  now rewrite Z.mod_pow2_bits_low by lia.
Qed.

Lemma analog_sample_window_witness :
  let data := [x00; x00; x05; x00; x00; x01; x02; x03] in
  (2 < 8)%nat /\
  nth 2 (analog_pins_of data) 0 = 1 /\
  nth 2 (field (decoded data) "analog_samples") 0 =
  int_from_bytes (slice data (5 + 1) (7 + 1)).
Proof.
  split; [lia|]. split; [reflexivity|].
  apply (analog_sample_window [x00; x00; x05; x00; x00; x01; x02; x03] 2);
    [lia | reflexivity].
Defined.

(** X2. Every entry of the decoded [digital_pins], [analog_pins] and
    [digital_samples] is 0 or 1, whatever the buffer. *)
Theorem decoded_entries_are_bits (data : bytes) :
  Forall (fun b => b = 0 \/ b = 1) (field (decoded data) "digital_pins") /\
  Forall (fun b => b = 0 \/ b = 1) (field (decoded data) "analog_pins") /\
  Forall (fun b => b = 0 \/ b = 1) (field (decoded data) "digital_samples").
Proof.
  rewrite decoded_digital_pins, decoded_analog_pins, decoded_digital_samples.
  cbn [map].
  repeat split;
    repeat (apply Forall_cons; [apply pin_bit_01; lia|]); apply Forall_nil.
Qed.

(** X3. The decoded [analog_pins[i]] is bit i of the analog mask, the
    byte at offset 2, for every i in 0..7: bit 0 is analog pin 0. *)
Theorem analog_pin_is_mask_bit (data : bytes) (i : nat) :
  (i < 8)%nat ->
  nth i (field (decoded data) "analog_pins") 0 =
  Z.b2z (Z.testbit (analog_mask_of data) (Z.of_nat i)).
Proof.
  intros Hi. rewrite decoded_analog_pins, <- pin_bit_testbit by lia.
  do 8 (destruct i as [|i]; [reflexivity|]). lia.
Qed.

Lemma analog_pin_is_mask_bit_witness :
  let data := [x00; x00; x82; x00; x00] in
  (7 < 8)%nat /\
  nth 7 (field (decoded data) "analog_pins") 0 =
  Z.b2z (Z.testbit (analog_mask_of data) (Z.of_nat 7)).
Proof.
  split; [lia|]. apply (analog_pin_is_mask_bit [x00; x00; x82; x00; x00] 7). lia.
Defined.

(** X4. Bits 13, 14 and 15 of the digital mask and of the digital sample
    word play no part: two buffers whose words agree modulo 2^13 decode to
    the same [digital_pins], and to the same [digital_samples]. *)
Theorem high_mask_bits_ignored (d1 d2 : bytes) :
  digital_mask_of d1 mod 2 ^ 13 = digital_mask_of d2 mod 2 ^ 13 ->
  digital_sample_of d1 mod 2 ^ 13 = digital_sample_of d2 mod 2 ^ 13 ->
  field (decoded d1) "digital_pins" = field (decoded d2) "digital_pins" /\
  field (decoded d1) "digital_samples" = field (decoded d2) "digital_samples".
Proof.
  intros Hmask Hsample.
  rewrite !decoded_digital_pins, !decoded_digital_samples.
  split; apply map_ext_in; intros i Hin;
    assert (Hi : 0 <= i < 13)
      by (cbn [In] in Hin; repeat destruct Hin as [<- | Hin]; try lia;
          contradiction).
  - rewrite <- (pin_bit_mod (digital_mask_of d1) i 13) by exact Hi.
    rewrite <- (pin_bit_mod (digital_mask_of d2) i 13) by exact Hi.
    now rewrite Hmask.
  - rewrite <- (pin_bit_mod (digital_sample_of d1) i 13) by exact Hi.
    rewrite <- (pin_bit_mod (digital_sample_of d2) i 13) by exact Hi.
    now rewrite Hsample.
Qed.

Lemma high_mask_bits_ignored_witness :
  let d1 := [xe0; x05; x00; xa0; x01] in
  let d2 := [x00; x05; x00; x00; x01] in
  digital_mask_of d1 mod 2 ^ 13 = digital_mask_of d2 mod 2 ^ 13 /\
  digital_sample_of d1 mod 2 ^ 13 = digital_sample_of d2 mod 2 ^ 13 /\
  field (decoded d1) "digital_pins" = field (decoded d2) "digital_pins" /\
  field (decoded d1) "digital_samples" = field (decoded d2) "digital_samples".
Proof.
  split; [reflexivity|]. split; [reflexivity|].
  apply (high_mask_bits_ignored [xe0; x05; x00; xa0; x01]
                                [x00; x05; x00; x00; x01]); reflexivity.
Defined.

(** X5. Bytes after the header and the analog words are ignored: when a
    buffer has the length its analog mask asks for, appending any bytes
    to it changes nothing of the result, and no data is given back. *)
Theorem trailing_bytes_ignored (data extra : bytes) :
  required_length data <= Z.of_nat (length data) ->
  IOSample_deserialize (data ++ extra) = IOSample_deserialize data.
Proof.
  intros Hlen. rewrite !IOSample_deserialize_eq.
  pose proof (enabled_before_nonneg (analog_pins_of data) 8) as Hnn.
  unfold required_length in Hlen.
  assert (Hmask : analog_pins_of (data ++ extra) = analog_pins_of data).
  { unfold analog_pins_of, analog_mask_of. now rewrite slice_app_l by lia. }
  unfold digital_mask_of, digital_sample_of.
  rewrite Hmask, !slice_app_l by lia.
  rewrite analog_loop_app_data; [reflexivity | lia |].
  change (count_occ Z.eq_dec (analog_pins_of data) 1)
    with (count_occ Z.eq_dec (firstn 8 (analog_pins_of data)) 1).
  fold (enabled_before (analog_pins_of data) 8). lia.
Qed.

Lemma trailing_bytes_ignored_witness :
  let data := [x00; x03; x01; x00; x01; x0a; x0b] in
  required_length data <= Z.of_nat (length data) /\
  IOSample_deserialize (data ++ [xff; xff]) = IOSample_deserialize data.
Proof.
  split; [vm_compute; discriminate|].
  apply (trailing_bytes_ignored [x00; x03; x01; x00; x01; x0a; x0b] [xff; xff]).
  vm_compute; discriminate.
Defined.

(** * Further properties of the pin-state updates *)

Lemma handle_mapped_sample_witness :
  let values : SampleDict :=
    [("digital_pins", [1; 0; 0; 0; 0; 0; 0; 0; 0; 0; 1; 0; 0]);
     ("digital_samples", [0; 0; 0; 0; 0; 0; 0; 0; 0; 0; 1; 0; 0])]%string in
  handle_cluster_general_request 7 ON_OFF_CMD [values] =
  ([UpdateAttribute 0xd0 ON_OFF_CMD 0; UpdateAttribute 0xda ON_OFF_CMD 1],
   Returned tt).
Proof.
  apply (handle_mapped_sample 7
           [("digital_pins", [1; 0; 0; 0; 0; 0; 0; 0; 0; 0; 1; 0; 0]);
            ("digital_samples", [0; 0; 0; 0; 0; 0; 0; 0; 0; 0; 1; 0; 0])]%string
           [1; 0; 0; 0; 0; 0; 0; 0; 0; 0; 1; 0; 0]
           [0; 0; 0; 0; 0; 0; 0; 0; 0; 0; 1; 0; 0]);
    [reflexivity | reflexivity | cbn [length]; lia |].
  intros pin Hpin Hone.
  destruct (Z.to_nat pin) as [|[|[|[|[|[|[|[|[|[|[|n]]]]]]]]]]] eqn:Hn;
    cbn [nth] in Hone; try discriminate Hone.
  - replace pin with 0 by lia. reflexivity.
  - replace pin with 10 by lia. reflexivity.
  - destruct n as [|[|n]]; cbn [nth] in Hone; try discriminate Hone.
    destruct n; discriminate Hone.
Defined.

(** Every pin of [ENDPOINT_MAP] leads to an endpoint with the on/off
    cluster. *)
Lemma ENDPOINT_MAP_on_off (pin endpoint_id : Z) :
  dict_get Z.eqb ENDPOINT_MAP pin = Some endpoint_id ->
  device_on_off endpoint_id = ret tt.
Proof.
  intros Hget.
  assert (Hkey : dict_mem Z.eqb pin ENDPOINT_MAP = true)
    by (unfold dict_mem; now rewrite Hget).
  apply ENDPOINT_MAP_keys in Hkey. cbn [In] in Hkey.
  repeat (destruct Hkey as [<- | Hkey];
          [inversion Hget; subst; reflexivity|]).
  contradiction.
Qed.

(** With both keys in the sample, the handler is the loop over the active
    pins. *)
Lemma handle_on_off_eq (tsn : Z) (values : SampleDict) (dp ds : list Z) :
  dict_get String.eqb values "digital_pins"%string = Some dp ->
  dict_get String.eqb values "digital_samples"%string = Some ds ->
  handle_cluster_general_request tsn ON_OFF_CMD [values] =
  update_pins values (active_pins_of dp).
Proof.
  intros Hdp Hds.
  unfold handle_cluster_general_request, dict_mem, getitem.
  cbn [Z.eqb ON_OFF_CMD].
  rewrite (list_getitem_in_range [values] 0 []) by (cbn [length]; lia).
  cbn [Z.to_nat nth].
  rewrite bind_ret_l, Hdp, Hds. cbn [andb]. now rewrite bind_ret_l.
Qed.

(** The loop stops at the first pin without an endpoint: the pins before
    it have been updated, the pins after it are not looked at. *)
Lemma update_pins_stops (values : SampleDict) (ds : list Z)
      (before : list Z) (pin : Z) (after : list Z) :
  dict_get String.eqb values "digital_samples"%string = Some ds ->
  Forall (fun p => dict_mem Z.eqb p ENDPOINT_MAP = true /\
                   0 <= p < Z.of_nat (length ds)) before ->
  dict_get Z.eqb ENDPOINT_MAP pin = None ->
  update_pins values (before ++ pin :: after) =
  (flat_map (update_of ds) before, Raised KeyError).
Proof.
  intros Hds Hall Hnone. induction Hall as [|p before [Hkey Hrange] _ IH].
  - cbn [app flat_map]. now apply update_pins_unmapped.
  - cbn [app flat_map]. unfold dict_mem in Hkey.
    destruct (dict_get Z.eqb ENDPOINT_MAP p) as [ep|] eqn:Hep; [|discriminate].
    rewrite (update_pins_cons values ds p ep _ Hep
               (ENDPOINT_MAP_on_off p ep Hep) Hds Hrange).
    rewrite IH. unfold update_of. now rewrite Hep.
Qed.

(** X7. When the active pins of a sample are [before], then a pin without
    an entry in [ENDPOINT_MAP], then [after], the handler updates the
    endpoints of [before] in order and raises KeyError: the pins of
    [after] get no update. *)
Theorem handle_stops_at_unmapped_pin (tsn : Z) (values : SampleDict)
        (dp ds before after : list Z) (pin : Z) :
  dict_get String.eqb values "digital_pins"%string = Some dp ->
  dict_get String.eqb values "digital_samples"%string = Some ds ->
  (length dp <= length ds)%nat ->
  active_pins_of dp = before ++ pin :: after ->
  Forall (fun p => dict_mem Z.eqb p ENDPOINT_MAP = true) before ->
  dict_get Z.eqb ENDPOINT_MAP pin = None ->
  handle_cluster_general_request tsn ON_OFF_CMD [values] =
  (flat_map (update_of ds) before, Raised KeyError).
Proof.
  intros Hdp Hds Hlen Hsplit Hbefore Hnone.
  rewrite (handle_on_off_eq tsn values dp ds Hdp Hds), Hsplit.
  apply update_pins_stops; [exact Hds | | exact Hnone].
  apply Forall_forall. intros p Hin. split.
  - now apply (proj1 (Forall_forall _ _) Hbefore).
  - assert (Hact : In p (active_pins_of dp))
      by (rewrite Hsplit; apply in_or_app; now left).
    apply active_pins_of_spec in Hact. lia.
Qed.

Lemma handle_stops_at_unmapped_pin_witness :
  let values : SampleDict :=
    [("digital_pins", [1; 0; 0; 0; 0; 0; 0; 1; 0; 0; 1; 0; 0]);
     ("digital_samples", [1; 0; 0; 0; 0; 0; 0; 1; 0; 0; 1; 0; 0])]%string in
  handle_cluster_general_request 7 ON_OFF_CMD [values] =
  ([UpdateAttribute 0xd0 ON_OFF_CMD 1], Raised KeyError).
Proof.
  apply (handle_stops_at_unmapped_pin 7
           [("digital_pins", [1; 0; 0; 0; 0; 0; 0; 1; 0; 0; 1; 0; 0]);
            ("digital_samples", [1; 0; 0; 0; 0; 0; 0; 1; 0; 0; 1; 0; 0])]%string
           [1; 0; 0; 0; 0; 0; 0; 1; 0; 0; 1; 0; 0]
           [1; 0; 0; 0; 0; 0; 0; 1; 0; 0; 1; 0; 0]
           [0] [10] 7);
    [reflexivity | reflexivity | cbn [length]; lia | reflexivity
     | repeat constructor | reflexivity].
Defined.

Lemma active_pins_enumerate (f : Z -> Z) (n : nat) :
  forall s,
    map fst (filter (fun ix : Z * Z => snd ix =? 1)
                    (combine (map Z.of_nat (seq s n))
                             (map f (map Z.of_nat (seq s n))))) =
    filter (fun i => f i =? 1) (map Z.of_nat (seq s n)).
Proof.
  induction n as [|n IH]; intros s; cbn [seq map combine filter snd].
  - reflexivity.
  - destruct (f (Z.of_nat s) =? 1); cbn [map fst]; now rewrite IH.
Qed.

Lemma active_pins_of_bits (x : Z) :
  active_pins_of (map (pin_bit x) [0; 1; 2; 3; 4; 5; 6; 7; 8; 9; 10; 11; 12]) =
  filter (fun i => pin_bit x i =? 1) [0; 1; 2; 3; 4; 5; 6; 7; 8; 9; 10; 11; 12].
Proof. exact (active_pins_enumerate (pin_bit x) 13 0). Qed.

Lemma flat_map_filter {A B : Type} (g : A -> list B) (p : A -> bool) (l : list A) :
  flat_map g (filter p l) = flat_map (fun x => if p x then g x else []) l.
Proof.
  induction l as [|x l IH]; cbn [filter flat_map]; [reflexivity|].
  destruct (p x); cbn [flat_map app]; now rewrite IH.
Qed.

Lemma b2z_eqb_1 (b : bool) : (Z.b2z b =? 1) = b.
Proof. now destruct b. Qed.

(** The updates of the active pins of a decoded sample, when pins 6 to 9
    are not enabled. *)
Lemma updates_of_decoded (mask sample : Z) :
  (forall i, 6 <= i <= 9 -> Z.testbit mask i = false) ->
  flat_map (update_of (map (pin_bit sample)
                           [0; 1; 2; 3; 4; 5; 6; 7; 8; 9; 10; 11; 12]))
           (active_pins_of (map (pin_bit mask)
                                [0; 1; 2; 3; 4; 5; 6; 7; 8; 9; 10; 11; 12])) =
  updates_of_words mask sample.
Proof.
  intros Hclear. rewrite active_pins_of_bits, flat_map_filter.
  unfold updates_of_words, update_of, ENDPOINT_MAP.
  cbn [flat_map dict_get Z.eqb Pos.eqb map nth Z.to_nat Pos.to_nat
       Pos.iter_op Nat.add].
  rewrite !pin_bit_testbit by lia. rewrite !b2z_eqb_1.
  rewrite (Hclear 6), (Hclear 7), (Hclear 8), (Hclear 9) by lia.
  cbn [app]. reflexivity.
Qed.

(** The handler on a decoded sample whose pins 6 to 9 are off. *)
Lemma handle_decoded (tsn : Z) (data : bytes) :
  (forall i, 6 <= i <= 9 -> Z.testbit (digital_mask_of data) i = false) ->
  handle_cluster_general_request tsn ON_OFF_CMD [decoded data] =
  (updates_of_words (digital_mask_of data) (digital_sample_of data),
   Returned tt).
Proof.
  intros Hclear.
  pose (pins := [0; 1; 2; 3; 4; 5; 6; 7; 8; 9; 10; 11; 12]).
  rewrite (handle_on_off_eq tsn (decoded data)
             (map (pin_bit (digital_mask_of data)) pins)
             (map (pin_bit (digital_sample_of data)) pins) eq_refl eq_refl).
  rewrite (update_pins_mapped (decoded data)
             (map (pin_bit (digital_sample_of data)) pins) _ eq_refl).
  - subst pins. now rewrite updates_of_decoded.
  - subst pins. apply Forall_forall. intros pin Hin.
    rewrite active_pins_of_bits in Hin. apply filter_In in Hin.
    destruct Hin as [Hin Hone]. apply Z.eqb_eq in Hone.
    cbn [In] in Hin.
    repeat (destruct Hin as [<- | Hin];
            [first [ split; [reflexivity | cbn [length map]; lia]
                   | rewrite pin_bit_testbit, Hclear in Hone by lia;
                     discriminate Hone ] |]).
    contradiction.
Qed.

(** X8. Decoding a buffer and handing the sample to the handler: when bits
    6 to 9 of the digital mask are clear, the handler returns, and its
    effects are exactly one on/off update for each pin of [ENDPOINT_MAP]
    whose mask bit is set, in ascending order of the pins, with the pin's
    bit of the sample word as value. *)
Theorem sample_updates_endpoints (tsn : Z) (data : bytes) :
  (forall i, 6 <= i <= 9 -> Z.testbit (digital_mask_of data) i = false) ->
  handle_cluster_general_request tsn ON_OFF_CMD [decoded data] =
  (updates_of_words (digital_mask_of data) (digital_sample_of data),
   Returned tt).
Proof. exact (handle_decoded tsn data). Qed.

Lemma sample_updates_endpoints_witness :
  let data := [x04; x21; x00; x04; x01] in
  (forall i, 6 <= i <= 9 -> Z.testbit (digital_mask_of data) i = false) /\
  handle_cluster_general_request 0 ON_OFF_CMD [decoded data] =
  ([UpdateAttribute 0xd0 ON_OFF_CMD 1; UpdateAttribute 0xd5 ON_OFF_CMD 0;
    UpdateAttribute 0xda ON_OFF_CMD 1], Returned tt).
Proof.
  assert (Hclear : forall i, 6 <= i <= 9 ->
                     Z.testbit (digital_mask_of [x04; x21; x00; x04; x01]) i = false).
  { intros i Hi.
    assert (Hcases : i = 6 \/ i = 7 \/ i = 8 \/ i = 9) by lia.
    destruct Hcases as [-> | [-> | [-> | ->]]]; reflexivity. }
  split; [exact Hclear|].
  exact (sample_updates_endpoints 0 [x04; x21; x00; x04; x01] Hclear).
Defined.

Lemma list_getitem_cases {A : Type} (l : list A) (i : Z) :
  (exists v, list_getitem l i = ret v) \/ list_getitem l i = raise IndexError.
Proof.
  unfold list_getitem. cbv zeta.
  destruct (_ <? 0); [now right|].
  destruct (nth_error l _) as [v|]; [left; now exists v | now right].
Qed.

Lemma bind_emit {B : Type} (ev : Event) (m : Py B) :
  bind (emit ev) (fun _ => m) = (ev :: fst m, snd m).
Proof. now destruct m. Qed.

Lemma update_pins_events (values : SampleDict) (pins : list Z) :
  Forall is_pin_update (fst (update_pins values pins)).
Proof.
  induction pins as [|pin pins IH]; cbn [update_pins].
  - constructor.
  - unfold getitem.
    destruct (dict_get Z.eqb ENDPOINT_MAP pin) as [ep|] eqn:Hep;
      [|constructor].
    rewrite bind_ret_l, (ENDPOINT_MAP_on_off pin ep Hep), bind_ret_l.
    destruct (dict_get String.eqb values "digital_samples"%string) as [ds|];
      [|constructor].
    rewrite bind_ret_l.
    destruct (list_getitem_cases ds pin) as [[v ->] | ->]; [|constructor].
    rewrite bind_ret_l, bind_emit. cbn [fst].
    constructor; [|exact IH]. now exists pin, ep, v.
Qed.

(** X9. Whatever its arguments, and whether it returns or raises, the
    handler does nothing but update the on/off attribute (0x0000) of
    endpoints that [ENDPOINT_MAP] lists and, for a command other than
    0x0000, hand the request to its parent class. *)
Theorem handler_touches_mapped_endpoints_only
        (tsn command_id : Z) (args : list SampleDict) :
  Forall (fun ev => is_pin_update ev \/ ev = SuperGeneralRequest tsn command_id)
         (fst (handle_cluster_general_request tsn command_id args)).
Proof.
  unfold handle_cluster_general_request.
  destruct (command_id =? ON_OFF_CMD).
  - destruct (list_getitem_cases args 0) as [[values ->] | ->]; [|constructor].
    rewrite bind_ret_l.
    destruct (dict_mem String.eqb "digital_pins"%string values
              && dict_mem String.eqb "digital_samples"%string values); [|constructor].
    unfold getitem.
    destruct (dict_get String.eqb values "digital_pins"%string) as [dp|];
      [|constructor].
    rewrite bind_ret_l.
    eapply Forall_impl; [|apply update_pins_events]. intros ev Hev. now left.
  - cbn [emit fst]. constructor; [now right | constructor].
Qed.

(** A sample dictionary that lacks one of the two keys is left alone. *)
Lemma handle_without_keys (tsn : Z) (values : SampleDict) :
  dict_mem String.eqb "digital_pins"%string values
  && dict_mem String.eqb "digital_samples"%string values = false ->
  handle_cluster_general_request tsn ON_OFF_CMD [values] = ret tt.
Proof.
  intros Hkeys. unfold handle_cluster_general_request. cbn [Z.eqb ON_OFF_CMD].
  rewrite (list_getitem_in_range [values] 0 []) by (cbn [length]; lia).
  cbn [Z.to_nat nth]. now rewrite bind_ret_l, Hkeys.
Qed.

(** * The tables of pins and endpoints *)

Lemma ep_id_2_pin_keys (endpoint_id : Z) (name : string) :
  dict_get Z.eqb ep_id_2_pin endpoint_id = Some name ->
  In endpoint_id [0xd0; 0xd1; 0xd2; 0xd3; 0xd4; 0xd5; 0xda; 0xdb; 0xdc].
Proof.
  unfold ep_id_2_pin. cbn [dict_get In].
  repeat match goal with
         | |- context [?k =? endpoint_id] =>
             destruct (Z.eqb_spec k endpoint_id); [subst; tauto|]
         end.
  discriminate.
Qed.

(** X10. The two tables agree: an endpoint is the target of some pin in
    [ENDPOINT_MAP] exactly when [ep_id_2_pin] names it, each such endpoint
    carries the on/off cluster in the replacement, and no two pins share
    an endpoint.  So every endpoint a sample can update takes pin
    commands, and every endpoint that takes pin commands is updated by
    the samples of its pin. *)
Theorem endpoint_tables_agree :
  (forall endpoint_id,
      (exists pin, dict_get Z.eqb ENDPOINT_MAP pin = Some endpoint_id) <->
      (exists name, dict_get Z.eqb ep_id_2_pin endpoint_id = Some name)) /\
  (forall pin endpoint_id,
      dict_get Z.eqb ENDPOINT_MAP pin = Some endpoint_id ->
      device_on_off endpoint_id = ret tt) /\
  (forall pin pin' endpoint_id,
      dict_get Z.eqb ENDPOINT_MAP pin = Some endpoint_id ->
      dict_get Z.eqb ENDPOINT_MAP pin' = Some endpoint_id ->
      pin = pin').
Proof.
  assert (Hkeys : forall pin ep,
             dict_get Z.eqb ENDPOINT_MAP pin = Some ep ->
             In (pin, ep) ENDPOINT_MAP).
  { intros pin ep Hget.
    assert (Hkey : dict_mem Z.eqb pin ENDPOINT_MAP = true)
      by (unfold dict_mem; now rewrite Hget).
    apply ENDPOINT_MAP_keys in Hkey. cbn [In] in Hkey.
    repeat (destruct Hkey as [<- | Hkey];
            [inversion Hget; subst; cbn; tauto|]).
    contradiction. }
  split; [|split].
  - intros ep. split.
    + intros [pin Hget]. apply Hkeys in Hget. cbn [In ENDPOINT_MAP] in Hget.
      repeat (destruct Hget as [Heq | Hget];
              [inversion Heq; subst; eexists; reflexivity|]).
      contradiction.
    + intros [name Hget]. apply ep_id_2_pin_keys in Hget. cbn [In] in Hget.
      destruct Hget as [<- | [<- | [<- | [<- | [<- | [<- | [<- | [<- | [<- | []]]]]]]]]].
      * now exists 0.
      * now exists 1.
      * now exists 2.
      * now exists 3.
      * now exists 4.
      * now exists 5.
      * now exists 10.
      * now exists 11.
      * now exists 12.
  - exact ENDPOINT_MAP_on_off.
  - intros pin pin' ep Hget Hget'.
    apply Hkeys in Hget. apply Hkeys in Hget'.
    cbn [In ENDPOINT_MAP] in Hget, Hget'.
    repeat (destruct Hget as [Heq | Hget];
            [inversion Heq; subst;
             repeat (destruct Hget' as [Heq' | Hget'];
                     [inversion Heq'; reflexivity|]);
             contradiction|]).
    contradiction.
Qed.

(** * Further properties of the pin commands *)

Lemma command_01 (command : Z) :
  command = 0 \/ command = 1 ->
  negb (existsb (Z.eqb command) [0; 1]) = false.
Proof. intros [-> | ->]; reflexivity. Qed.

Lemma pin_cmd_opcode (command : Z) :
  command = 0 \/ command = 1 ->
  (if command =? 0 then DIO_PIN_LOW else DIO_PIN_HIGH) = pin_opcode command.
Proof. intros [-> | ->]; reflexivity. Qed.

(** What the command does for a named endpoint and a command 0 or 1: one
    call of [remote_at], awaited. *)
Lemma pin_command_eq (device : XbeeSensor) (endpoint_id : Z) (name : string)
      (command : Z) (args : list Z) :
  dict_get Z.eqb ep_id_2_pin endpoint_id = Some name ->
  command = 0 \/ command = 1 ->
  XBeeOnOff_command device endpoint_id command args =
  bind (XbeeSensor_remote_at device name [pin_opcode command])
       (fun a => bind (await a) (fun _ => ret (Reply 0 SUCCESS))).
Proof.
  intros Hname Hcmd. unfold XBeeOnOff_command.
  now rewrite Hname, (command_01 command Hcmd), (pin_cmd_opcode command Hcmd).
Qed.

(** X11. On a coordinator without [remote_at_command], a pin command (a
    named endpoint, command 0 or 1) sends nothing: the device logs its
    warning and gives back [None], and awaiting that raises TypeError; no
    status is returned. *)
Theorem command_without_remote_at (device : XbeeSensor) (endpoint_id : Z)
        (name : string) (command : Z) (args : list Z) :
  remote_at_command (_application device) = None ->
  dict_get Z.eqb ep_id_2_pin endpoint_id = Some name ->
  command = 0 \/ command = 1 ->
  XBeeOnOff_command device endpoint_id command args =
  ([LogWarning "Remote At Command not supported by this coordinator" []],
   Raised TypeError).
Proof.
  intros Happ Hname Hcmd. rewrite (pin_command_eq _ _ name) by assumption.
  unfold XbeeSensor_remote_at. now rewrite Happ.
Qed.

Lemma command_without_remote_at_witness :
  let device := {| _application := plain_app; nwk := 0x1234 |} in
  remote_at_command (_application device) = None /\
  dict_get Z.eqb ep_id_2_pin 0xdb = Some "P1"%string /\
  (0 = 0 \/ 0 = 1) /\
  XBeeOnOff_command device 0xdb 0 [] =
  ([LogWarning "Remote At Command not supported by this coordinator" []],
   Raised TypeError).
Proof.
  split; [reflexivity|]. split; [reflexivity|]. split; [left; reflexivity|].
  apply (command_without_remote_at
           {| _application := plain_app; nwk := 0x1234 |} 0xdb "P1" 0 []);
    [reflexivity | reflexivity | left; reflexivity].
Defined.

(** X12. When the coordinator's remote write raises, the pin command has
    handed over its one remote AT command and raises the same exception:
    it does not report success. *)
Theorem command_transport_failure (device : XbeeSensor)
        (send : Z -> string -> list Z -> bool -> bool -> outcome unit)
        (endpoint_id : Z) (name : string) (command : Z) (args : list Z)
        (e : exn) :
  remote_at_command (_application device) = Some send ->
  dict_get Z.eqb ep_id_2_pin endpoint_id = Some name ->
  command = 0 \/ command = 1 ->
  send (nwk device) name [pin_opcode command] true true = Raised e ->
  XBeeOnOff_command device endpoint_id command args =
  ([RemoteAtCommand (nwk device) name [pin_opcode command] true true],
   Raised e).
Proof.
  intros Happ Hname Hcmd Hsend. rewrite (pin_command_eq _ _ name) by assumption.
  unfold XbeeSensor_remote_at. rewrite Happ. cbn. now rewrite Hsend.
Qed.

Lemma command_transport_failure_witness :
  let send := fun (_ : Z) (_ : string) (_ : list Z) (_ _ : bool) =>
                @Raised unit TransportError in
  let device :=
    {| _application := {| remote_at_command := Some send |}; nwk := 0x1234 |} in
  remote_at_command (_application device) = Some send /\
  dict_get Z.eqb ep_id_2_pin 0xd3 = Some "D3"%string /\
  (1 = 0 \/ 1 = 1) /\
  send (nwk device) "D3"%string [pin_opcode 1] true true = Raised TransportError /\
  XBeeOnOff_command device 0xd3 1 [] =
  ([RemoteAtCommand 0x1234 "D3" [DIO_PIN_HIGH] true true],
   Raised TransportError).
Proof.
  split; [reflexivity|]. split; [reflexivity|].
  split; [right; reflexivity|]. split; [reflexivity|].
  apply (command_transport_failure
           {| _application :=
                {| remote_at_command :=
                     Some (fun _ _ _ _ _ => @Raised unit TransportError) |};
              nwk := 0x1234 |}
           (fun _ _ _ _ _ => Raised TransportError) 0xd3 "D3" 1 [] TransportError);
    [reflexivity | reflexivity | right; reflexivity | reflexivity].
Defined.

(** X13. The command returns a status only as [(0, SUCCESS)], and only
    when the endpoint is named, the command is 0 or 1, the coordinator
    has [remote_at_command] and the remote write of the pin's opcode has
    completed; exactly that one remote AT command has been handed over. *)
Theorem command_success_means_sent (device : XbeeSensor) (endpoint_id : Z)
        (command : Z) (args : list Z) (events : list Event)
        (tsn : Z) (status : foundation_Status) :
  XBeeOnOff_command device endpoint_id command args =
  (events, Returned (Reply tsn status)) ->
  exists send name,
    remote_at_command (_application device) = Some send /\
    dict_get Z.eqb ep_id_2_pin endpoint_id = Some name /\
    (command = 0 \/ command = 1) /\
    send (nwk device) name [pin_opcode command] true true = Returned tt /\
    events = [RemoteAtCommand (nwk device) name [pin_opcode command] true true] /\
    tsn = 0 /\ status = SUCCESS.
Proof.
  unfold XBeeOnOff_command, XbeeSensor_remote_at. cbn [existsb].
  destruct (Z.eqb_spec command 0) as [-> | H0].
  - cbn [orb negb].
    destruct (dict_get Z.eqb ep_id_2_pin endpoint_id) as [name|];
      [|discriminate].
    destruct (remote_at_command (_application device)) as [send|];
      [|discriminate].
    cbn. destruct (send (nwk device) name [DIO_PIN_LOW] true true) as [[]|e] eqn:Hsend;
      cbn; intros Heq; inversion Heq; subst.
    exists send, name. repeat split; auto.
  - destruct (Z.eqb_spec command 1) as [-> | H1]; cbn [orb negb];
      [|discriminate].
    destruct (dict_get Z.eqb ep_id_2_pin endpoint_id) as [name|];
      [|discriminate].
    destruct (remote_at_command (_application device)) as [send|];
      [|discriminate].
    cbn. destruct (send (nwk device) name [DIO_PIN_HIGH] true true) as [[]|e] eqn:Hsend;
      cbn; intros Heq; inversion Heq; subst.
    exists send, name. repeat split; auto.
Qed.

Lemma command_success_means_sent_witness :
  let device := {| _application := zigpy_xbee_app; nwk := 0x1234 |} in
  exists send name,
    remote_at_command (_application device) = Some send /\
    dict_get Z.eqb ep_id_2_pin 0xd1 = Some name /\
    (0 = 0 \/ 0 = 1) /\
    send (nwk device) name [pin_opcode 0] true true = Returned tt /\
    [RemoteAtCommand 0x1234 "D1" [DIO_PIN_LOW] true true] =
    [RemoteAtCommand (nwk device) name [pin_opcode 0] true true] /\
    0 = 0 /\ SUCCESS = SUCCESS.
Proof.
  apply (command_success_means_sent
           {| _application := zigpy_xbee_app; nwk := 0x1234 |} 0xd1 0 []
           [RemoteAtCommand 0x1234 "D1" [DIO_PIN_LOW] true true] 0 SUCCESS).
  reflexivity.
Defined.

Lemma other_command_forwards_witness :
  2 <> 0 /\ 2 <> 1 /\
  XBeeOnOff_command {| _application := zigpy_xbee_app; nwk := 0 |} 0xd0 2 [] =
  ret (SuperCommand 2 []).
Proof.
  split; [lia|]. split; [lia|].
  apply (other_command_forwards
           {| _application := zigpy_xbee_app; nwk := 0 |} 0xd0 2 []); lia.
Defined.

(** X14. Whatever the endpoint, the command and the coordinator, the
    command leaves at most one effect behind: the device's warning, or
    one remote AT command to the device's own address that carries a
    pin name of [ep_id_2_pin] for this endpoint, the single argument
    0x04 or 0x05, and [apply_changes] and [encryption] set. *)
Theorem command_effects_bounded (device : XbeeSensor) (endpoint_id : Z)
        (command : Z) (args : list Z) :
  (length (fst (XBeeOnOff_command device endpoint_id command args)) <= 1)%nat /\
  Forall (fun ev =>
            ev = LogWarning "Remote At Command not supported by this coordinator" [] \/
            exists name opcode,
              dict_get Z.eqb ep_id_2_pin endpoint_id = Some name /\
              (opcode = DIO_PIN_LOW \/ opcode = DIO_PIN_HIGH) /\
              ev = RemoteAtCommand (nwk device) name [opcode] true true)
         (fst (XBeeOnOff_command device endpoint_id command args)).
Proof.
  unfold XBeeOnOff_command, XbeeSensor_remote_at.
  destruct (negb (existsb (Z.eqb command) [0; 1]));
    [cbn; split; [lia | constructor]|].
  destruct (dict_get Z.eqb ep_id_2_pin endpoint_id) as [name|];
    [|cbn; split; [lia | constructor]].
  destruct (remote_at_command (_application device)) as [send|].
  - cbn. destruct (send (nwk device) name _ true true) as [[]|e]; cbn;
      (split; [lia|]); (apply Forall_cons; [|apply Forall_nil]); right;
      exists name, (if command =? 0 then DIO_PIN_LOW else DIO_PIN_HIGH);
      (split; [reflexivity|]); (split; [|reflexivity]);
      destruct (command =? 0); auto.
  - cbn. split; [lia|]. constructor; [now left | constructor].
Qed.

(** * Further properties of the receive path *)

Section ReceiveFacts.

Variable ForeignValue : Type.
Variable foundation_COMMANDS : Z -> option (Command ForeignValue).

Lemma commands_lookup (is_reply : bool) (command_id : Z) :
  dict_get Z.eqb (if is_reply then client_commands ForeignValue
                  else server_commands ForeignValue) command_id =
  if command_id =? 0
  then Some ("io_sample"%string, [T_IOSample], false)
  else None.
Proof.
  destruct is_reply; cbn [dict_get client_commands server_commands];
    rewrite (Z.eqb_sym 0 command_id); reflexivity.
Qed.

(** The fallback of a cluster command that is not in the table, in terms
    of the two packed integers. *)
Lemma cluster_fallback_eq (tsn : Z) (is_reply : bool) (command_id : Z)
      (data pt pc : bytes) :
  command_id <> 0 ->
  struct_pack_i tsn = ret pt ->
  struct_pack_i command_id = ret pc ->
  DigitalIOCluster_deserialize ForeignValue foundation_COMMANDS
                               tsn 1 is_reply command_id data =
  ret (tsn, ON_OFF_CMD, false,
       Args [VSample (decoded (slice_from pt (-1) ++ slice_from pc (-1) ++ data))]).
Proof.
  intros Hid Hpt Hpc. unfold DigitalIOCluster_deserialize.
  cbn [Z.eqb Pos.eqb]. rewrite commands_lookup.
  destruct (Z.eqb_spec command_id 0); [contradiction|].
  rewrite Hpt, Hpc, !bind_ret_l. cbn [ON_OFF_CMD].
  rewrite commands_lookup. reflexivity.
Qed.


(** The result of a cluster command that is not in the table and whose
    two integers can be packed. *)
Lemma cluster_fallback_decoded (tsn : Z) (is_reply : bool) (command_id : Z)
      (data : bytes) :
  command_id <> 0 ->
  - 2 ^ 31 <= tsn < 2 ^ 31 ->
  - 2 ^ 31 <= command_id < 2 ^ 31 ->
  DigitalIOCluster_deserialize ForeignValue foundation_COMMANDS
                               tsn 1 is_reply command_id data =
  ret (tsn, ON_OFF_CMD, false,
       Args [VSample (decoded (byte_of_Z tsn :: byte_of_Z command_id :: data))]).
Proof.
  intros Hid Htsn Hcmd.
  destruct (struct_pack_i_last tsn Htsn) as (pt & Hpt & Hlt).
  destruct (struct_pack_i_last command_id Hcmd) as (pc & Hpc & Hlc).
  rewrite (cluster_fallback_eq tsn is_reply command_id data pt pc Hid Hpt Hpc).
  now rewrite Hlt, Hlc.
Qed.

End ReceiveFacts.

Lemma slice_cons {A : Type} (x : A) (l : list A) (i j : Z) :
  0 <= i -> 0 <= j -> slice (x :: l) (i + 1) (j + 1) = slice l i j.
Proof.
  intros Hi Hj. unfold slice, clamp. cbn [length]. rewrite Nat2Z.inj_succ.
  destruct (Z.ltb_spec (i + 1) 0); [lia|]. destruct (Z.ltb_spec (j + 1) 0); [lia|].
  destruct (Z.ltb_spec i 0); [lia|]. destruct (Z.ltb_spec j 0); [lia|].
  replace (Z.min (i + 1) (Z.succ (Z.of_nat (length l))))
    with (Z.min i (Z.of_nat (length l)) + 1) by lia.
  replace (Z.min (j + 1) (Z.succ (Z.of_nat (length l))))
    with (Z.min j (Z.of_nat (length l)) + 1) by lia.
  replace (Z.to_nat (Z.min i (Z.of_nat (length l)) + 1))
    with (S (Z.to_nat (Z.min i (Z.of_nat (length l))))) by lia.
  cbn [skipn]. f_equal. lia.
Qed.

(** The three words of a buffer that starts with two given bytes. *)
Lemma header_words (h1 h2 : byte) (data : bytes) :
  digital_mask_of (h1 :: h2 :: data) = 256 * byte_val h1 + byte_val h2 /\
  analog_mask_of (h1 :: h2 :: data) = int_from_bytes (slice data 0 1) /\
  digital_sample_of (h1 :: h2 :: data) = int_from_bytes (slice data 1 3).
Proof.
  unfold digital_mask_of, analog_mask_of, digital_sample_of.
  repeat split.
  - change (h1 :: h2 :: data) with ([h1; h2] ++ data).
    rewrite slice_app_l by (cbn [length]; lia).
    change (slice [h1; h2] 0 2) with [h1; h2].
    unfold int_from_bytes. cbn [fold_left]. lia.
  - change (slice (h1 :: h2 :: data) 2 3)
      with (slice (h1 :: h2 :: data) (1 + 1) (2 + 1)).
    rewrite (slice_cons h1 (h2 :: data) 1 2) by lia.
    change (slice (h2 :: data) 1 2) with (slice (h2 :: data) (0 + 1) (1 + 1)).
    now rewrite (slice_cons h2 data 0 1) by lia.
  - change (slice (h1 :: h2 :: data) 3 5)
      with (slice (h1 :: h2 :: data) (2 + 1) (4 + 1)).
    rewrite (slice_cons h1 (h2 :: data) 2 4) by lia.
    change (slice (h2 :: data) 2 4) with (slice (h2 :: data) (1 + 1) (3 + 1)).
    now rewrite (slice_cons h2 data 1 3) by lia.
Qed.

Lemma struct_pack_i_cases (x : Z) :
  (exists packed, struct_pack_i x = ret packed) \/
  struct_pack_i x = raise StructError.
Proof.
  unfold struct_pack_i. destruct (_ && _); [left; eauto | now right].
Qed.

Lemma nth_pin_bits_8 (x : Z) (i : nat) :
  (i < 8)%nat ->
  nth i (map (pin_bit x) [0; 1; 2; 3; 4; 5; 6; 7]) 0 =
  Z.b2z (Z.testbit x (Z.of_nat i)).
Proof.
  intros Hi. rewrite <- pin_bit_testbit by lia.
  do 8 (destruct i as [|i]; [reflexivity|]). lia.
Qed.

(** X16. In the fallback for a cluster command that is not 0x0000, the
    low byte of the transaction number becomes the high byte of the
    digital mask and the low byte of the command identifier its low
    byte; the analog mask is the first byte of the data and the digital
    sample word the two bytes after it. *)
Theorem fallback_rebuilds_words
        (ForeignValue : Type)
        (foundation_COMMANDS : Z -> option (Command ForeignValue))
        (tsn : Z) (is_reply : bool) (command_id : Z) (data : bytes) :
  command_id <> 0 ->
  - 2 ^ 31 <= tsn < 2 ^ 31 ->
  - 2 ^ 31 <= command_id < 2 ^ 31 ->
  exists values,
    DigitalIOCluster_deserialize ForeignValue foundation_COMMANDS
                                 tsn 1 is_reply command_id data =
    ret (tsn, ON_OFF_CMD, false, Args [VSample values]) /\
    (forall i, (i < 13)%nat ->
       nth i (field values "digital_pins") 0 =
         Z.b2z (Z.testbit (256 * (tsn mod 256) + command_id mod 256) (Z.of_nat i)) /\
       nth i (field values "digital_samples") 0 =
         Z.b2z (Z.testbit (int_from_bytes (slice data 1 3)) (Z.of_nat i))) /\
    (forall i, (i < 8)%nat ->
       nth i (field values "analog_pins") 0 =
         Z.b2z (Z.testbit (int_from_bytes (slice data 0 1)) (Z.of_nat i))).
Proof.
  intros Hid Htsn Hcmd.
  exists (decoded (byte_of_Z tsn :: byte_of_Z command_id :: data)).
  split; [now apply cluster_fallback_decoded|].
  destruct (header_words (byte_of_Z tsn) (byte_of_Z command_id) data)
    as (Hmask & Hanalog & Hsample).
  rewrite !byte_val_of_Z in Hmask.
  rewrite decoded_digital_pins, decoded_digital_samples, decoded_analog_pins.
  rewrite Hmask, Hanalog, Hsample.
  split.
  - intros i Hi. split; now apply nth_pin_bits.
  - intros i Hi. now apply nth_pin_bits_8.
Qed.

Lemma fallback_rebuilds_words_witness :
  exists values,
    DigitalIOCluster_deserialize unit (fun _ => None) 0x04 1 true 0x21
                                 [x80; x04; x01] =
    ret (0x04, ON_OFF_CMD, false, Args [VSample values]) /\
    (forall i, (i < 13)%nat ->
       nth i (field values "digital_pins") 0 =
         Z.b2z (Z.testbit (256 * (0x04 mod 256) + 0x21 mod 256) (Z.of_nat i)) /\
       nth i (field values "digital_samples") 0 =
         Z.b2z (Z.testbit (int_from_bytes (slice [x80; x04; x01] 1 3)) (Z.of_nat i))) /\
    (forall i, (i < 8)%nat ->
       nth i (field values "analog_pins") 0 =
         Z.b2z (Z.testbit (int_from_bytes (slice [x80; x04; x01] 0 1)) (Z.of_nat i))).
Proof.
  apply (fallback_rebuilds_words unit (fun _ => None) 0x04 true 0x21
                                 [x80; x04; x01]); lia.
Defined.

(** X17. From the frame to the endpoints: a cluster command that is not
    0x0000, whose rebuilt digital mask has bits 6 to 9 clear, is decoded
    as an IO sample under identifier 0x0000, and the handler, given that
    identifier and that sample, returns after exactly one on/off update
    for each pin of [ENDPOINT_MAP] whose mask bit is set, in ascending
    order, with the pin's bit of the sample word. *)
Theorem io_frame_updates_endpoints
        (ForeignValue : Type)
        (foundation_COMMANDS : Z -> option (Command ForeignValue))
        (tsn : Z) (is_reply : bool) (command_id : Z) (data : bytes) :
  command_id <> 0 ->
  - 2 ^ 31 <= tsn < 2 ^ 31 ->
  - 2 ^ 31 <= command_id < 2 ^ 31 ->
  (forall i, 6 <= i <= 9 ->
     Z.testbit (256 * (tsn mod 256) + command_id mod 256) i = false) ->
  exists values,
    DigitalIOCluster_deserialize ForeignValue foundation_COMMANDS
                                 tsn 1 is_reply command_id data =
    ret (tsn, ON_OFF_CMD, false, Args [VSample values]) /\
    handle_cluster_general_request tsn ON_OFF_CMD [values] =
    (updates_of_words (256 * (tsn mod 256) + command_id mod 256)
                      (int_from_bytes (slice data 1 3)),
     Returned tt).
Proof.
  intros Hid Htsn Hcmd Hclear.
  exists (decoded (byte_of_Z tsn :: byte_of_Z command_id :: data)).
  split; [now apply cluster_fallback_decoded|].
  destruct (header_words (byte_of_Z tsn) (byte_of_Z command_id) data)
    as (Hmask & _ & Hsample).
  rewrite !byte_val_of_Z in Hmask.
  rewrite handle_decoded by (now rewrite Hmask).
  now rewrite Hmask, Hsample.
Qed.

Lemma io_frame_updates_endpoints_witness :
  exists values,
    DigitalIOCluster_deserialize unit (fun _ => None) 0x04 1 false 0x21
                                 [x00; x04; x01] =
    ret (0x04, ON_OFF_CMD, false, Args [VSample values]) /\
    handle_cluster_general_request 0x04 ON_OFF_CMD [values] =
    (updates_of_words (256 * (0x04 mod 256) + 0x21 mod 256)
                      (int_from_bytes (slice [x00; x04; x01] 1 3)),
     Returned tt).
Proof.
  apply (io_frame_updates_endpoints unit (fun _ => None) 0x04 false 0x21
                                    [x00; x04; x01]); try lia.
  intros i Hi.
  assert (Hcases : i = 6 \/ i = 7 \/ i = 8 \/ i = 9) by lia.
  destruct Hcases as [-> | [-> | [-> | ->]]]; reflexivity.
Defined.

(** X18. A transaction number outside the range of a signed 32-bit
    integer cannot be packed: for a cluster command that is not 0x0000
    the receive path then raises [struct.error], with nothing logged. *)
Theorem fallback_out_of_range
        (ForeignValue : Type)
        (foundation_COMMANDS : Z -> option (Command ForeignValue))
        (tsn : Z) (is_reply : bool) (command_id : Z) (data : bytes) :
  command_id <> 0 ->
  tsn < - 2 ^ 31 \/ 2 ^ 31 <= tsn ->
  DigitalIOCluster_deserialize ForeignValue foundation_COMMANDS
                               tsn 1 is_reply command_id data =
  raise StructError.
Proof.
  intros Hid Hrange. unfold DigitalIOCluster_deserialize.
  cbn [Z.eqb Pos.eqb]. rewrite commands_lookup.
  destruct (Z.eqb_spec command_id 0); [contradiction|].
  unfold struct_pack_i.
  destruct (Z.leb_spec (- 2 ^ 31) tsn); destruct (Z.ltb_spec tsn (2 ^ 31));
    try lia; reflexivity.
Qed.

Lemma fallback_out_of_range_witness :
  5 <> 0 /\ (2 ^ 31 < - 2 ^ 31 \/ 2 ^ 31 <= 2 ^ 31) /\
  DigitalIOCluster_deserialize unit (fun _ => None) (2 ^ 31) 1 false 5 [x00] =
  raise StructError.
Proof.
  split; [lia|]. split; [right; lia|].
  apply (fallback_out_of_range unit (fun _ => None) (2 ^ 31) false 5 [x00]);
    [lia | right; lia].
Defined.

Lemma unknown_foundation_command_witness :
  0 <> 1 /\
  DigitalIOCluster_deserialize unit (fun _ => None) 9 0 true 0x0b [x01; x02] =
  ([LogWarning "Unknown foundation command %s" [0x0b]],
   Returned (9, 0x0b, true, Raw [x01; x02])).
Proof.
  split; [lia|].
  apply (unknown_foundation_command unit (fun _ => None) 9 0 true 0x0b
                                    [x01; x02]); [lia | reflexivity].
Defined.

(** X20. What the receive path returns, when it returns: the transaction
    number is the one it was given; a cluster frame (frame type 1) always
    comes back as a decoded IO sample that is not a reply, under
    identifier 0x0100 when the command was 0x0000 and under 0x0000
    otherwise; any other frame keeps its command identifier. *)
Theorem receive_result_shape
        (ForeignValue : Type)
        (foundation_COMMANDS : Z -> option (Command ForeignValue))
        (tsn frame_type : Z) (is_reply : bool) (command_id : Z) (data : bytes)
        (events : list Event) (tsn' command_id' : Z) (is_reply' : bool)
        (payload : Payload ForeignValue) :
  DigitalIOCluster_deserialize ForeignValue foundation_COMMANDS
                               tsn frame_type is_reply command_id data =
  (events, Returned (tsn', command_id', is_reply', payload)) ->
  tsn' = tsn /\
  (frame_type = 1 ->
     (exists values, payload = Args [VSample values]) /\ is_reply' = false /\
     events = [] /\
     ((command_id = 0 /\ command_id' = 256) \/
      (command_id <> 0 /\ command_id' = 0))) /\
  (frame_type <> 1 -> command_id' = command_id).
Proof.
  destruct (Z.eq_dec frame_type 1) as [-> | Hft].
  - destruct (Z.eq_dec command_id 0) as [-> | Hid].
    + rewrite io_sample_command_decoded. unfold ret. intros Heq.
      injection Heq as <- <- <- <- <-.
      split; [reflexivity|]. split; [|intros Hne; contradiction].
      intros _. repeat split; eauto.
    + intros Heq.
      destruct (struct_pack_i_cases tsn) as [[pt Hpt] | Hpt];
        [destruct (struct_pack_i_cases command_id) as [[pc Hpc] | Hpc]|].
      * rewrite (cluster_fallback_eq ForeignValue foundation_COMMANDS
                   tsn is_reply command_id data pt pc Hid Hpt Hpc) in Heq.
        unfold ret in Heq.
        injection Heq as <- <- <- <- <-.
        split; [reflexivity|]. split; [|intros Hne; contradiction].
        intros _. repeat split; eauto.
      * unfold DigitalIOCluster_deserialize in Heq.
        cbn [Z.eqb Pos.eqb] in Heq. rewrite commands_lookup in Heq.
        destruct (Z.eqb_spec command_id 0); [contradiction|].
        rewrite Hpt, bind_ret_l, Hpc, bind_raise in Heq. discriminate Heq.
      * unfold DigitalIOCluster_deserialize in Heq.
        cbn [Z.eqb Pos.eqb] in Heq. rewrite commands_lookup in Heq.
        destruct (Z.eqb_spec command_id 0); [contradiction|].
        rewrite Hpt, bind_raise in Heq. discriminate Heq.
  - unfold DigitalIOCluster_deserialize.
    destruct (Z.eqb_spec frame_type 1); [contradiction|].
    destruct (foundation_COMMANDS command_id) as [[[name schema] reply]|].
    + destruct (t_deserialize ForeignValue data schema) as [l [[value rest]|e]];
        cbn.
      * destruct rest; cbn; intros Heq; inversion Heq; subst;
          (split; [reflexivity|]); (split; [intros; contradiction|]);
          reflexivity.
      * intros Heq. inversion Heq.
    + cbn. intros Heq. inversion Heq; subst.
      split; [reflexivity|]. split; [intros; contradiction|]. reflexivity.
Qed.

Lemma receive_result_shape_witness :
  0x21 = 0x21 /\
  (1 = 1 ->
     (exists values,
         Args [VSample (decoded [x21; x00; x00; x04; x01])] =
         @Args unit [VSample values]) /\
     false = false /\ @nil Event = [] /\
     ((0 = 0 /\ 256 = 256) \/ (0 <> 0 /\ 256 = 0))) /\
  (1 <> 1 -> 256 = 0).
Proof.
  apply (receive_result_shape unit (fun _ => None) 0x21 1 false 0
                              [x21; x00; x00; x04; x01] []).
  reflexivity.
Defined.
